(** * download_install_tool: a shallow embedding and its properties

    The tool reads a ledger (the workbook download.xlsx), downloads the
    packages it lists, installs them through the adb bridge tool and
    writes the outcome of every step back into the ledger.

    Layout of the development
    - [Text]    Python strings as lists of code points, with the string
                methods the program calls;
    - [Ledger]  the workbook as a list of rows of text, and the pure part
                of [update_excel_status];
    - [Pandas]  the cells of the workbook as pandas reads and writes them
                (missing values, numbers): where the program departs
                from the rows of text;
    - [Effects] a small program monad (external calls, exceptions,
                try/except), its sequential semantics and the worker pool;
    - [Tool]    the functions of download_install_tool.py;
    - the properties, grouped by function. *)

From Stdlib Require Import ZArith NArith Lia.
From stdpp Require Import gmap list strings.

Local Open Scope N_scope.

(** ** Text *)

(** A Python [str] is a sequence of Unicode code points. *)
Abbreviation str := (list N).

Module Text.

(** Literals are written as UTF-8 text and decoded once. *)
Fixpoint utf8_decode (bs : list N) : str :=
  match bs with
  | [] => []
  | b :: r =>
    if b <? 128 then b :: utf8_decode r
    else if b <? 224 then
      match r with
      | c1 :: r' => ((b - 192) * 64 + (c1 - 128)) :: utf8_decode r'
      | _ => []
      end
    else if b <? 240 then
      match r with
      | c1 :: c2 :: r' =>
        ((b - 224) * 4096 + (c1 - 128) * 64 + (c2 - 128)) :: utf8_decode r'
      | _ => []
      end
    else
      match r with
      | c1 :: c2 :: c3 :: r' =>
        ((b - 240) * 262144 + (c1 - 128) * 4096 + (c2 - 128) * 64 + (c3 - 128))
          :: utf8_decode r'
      | _ => []
      end
  end.

Definition u (s : string) : str :=
  utf8_decode (Ascii.N_of_ascii <$> String.list_ascii_of_string s).
Arguments u : simpl never.

(** [str.isspace] for one code point. *)
Definition isspace (c : N) : bool :=
  ((9 <=? c) && (c <=? 13)) || ((28 <=? c) && (c <=? 32))
  || (c =? 133) || (c =? 160) || (c =? 5760)
  || ((8192 <=? c) && (c <=? 8202))
  || (c =? 8232) || (c =? 8233) || (c =? 8239) || (c =? 8287) || (c =? 12288).

(** The line boundaries of [str.splitlines]. *)
Definition is_linebreak (c : N) : bool :=
  ((10 <=? c) && (c <=? 13)) || ((28 <=? c) && (c <=? 30))
  || (c =? 133) || (c =? 8232) || (c =? 8233).

(** [s.splitlines()]: CR LF counts as one boundary, and a final boundary
    does not open an empty last line. *)
Fixpoint splitlines (s : str) : list str :=
  match s with
  | [] => []
  | c :: s' =>
    if is_linebreak c then
      [] :: match c, s' with
            | 13, 10 :: s'' => splitlines s''
            | _, _ => splitlines s'
            end
    else
      match splitlines s' with
      | [] => [[c]]
      | l :: ls => (c :: l) :: ls
      end
  end.

(** [s.split()]: tokens separated by runs of whitespace. [cur] holds the
    token being read, last character first. *)
Fixpoint split_from (cur : str) (s : str) : list str :=
  match s with
  | [] => match cur with [] => [] | _ => [rev cur] end
  | c :: s' =>
    if isspace c then
      match cur with
      | [] => split_from [] s'
      | _ => rev cur :: split_from [] s'
      end
    else split_from (c :: cur) s'
  end.

Definition split (s : str) : list str := split_from [] s.

(** [s.endswith(suffix)] *)
Definition endswith (s suffix : str) : bool :=
  bool_decide (drop (length s - length suffix) s = suffix).

Definition startswith (s pre : str) : bool :=
  bool_decide (take (length pre) s = pre).

(** [sub in s] *)
Fixpoint contains (sub s : str) : bool :=
  startswith s sub ||
  match s with
  | [] => false
  | _ :: s' => contains sub s'
  end.

(** [s.strip()] *)
Fixpoint lstrip (s : str) : str :=
  match s with
  | c :: s' => if isspace c then lstrip s' else s
  | [] => []
  end.

Definition strip (s : str) : str := rev (lstrip (rev (lstrip s))).

(** [s.lower()]. The ASCII letters are mapped here; the lower-case
    mapping of the other code points comes from the Unicode tables, which
    are a parameter ([lower_table]). *)
Definition lower_char (lower_table : N -> str) (c : N) : str :=
  if (65 <=? c) && (c <=? 90) then [c + 32]
  else if c <? 128 then [c]
  else lower_table c.

Definition lower (lower_table : N -> str) (s : str) : str :=
  s ≫= lower_char lower_table.

(** [s.rfind(c)] for a single character, [None] standing for -1. *)
Fixpoint rfind (c : N) (s : str) : option nat :=
  match s with
  | [] => None
  | d :: s' =>
    match rfind c s' with
    | Some i => Some (S i)
    | None => if d =? c then Some 0%nat else None
    end
  end.

End Text.
Export Text.

(** ** os.path (posixpath) *)

Module Path.

Definition sep : N := 47.     (* "/" *)
Definition extsep : N := 46.  (* "." *)

(** [os.path.join(a, b)] *)
Definition join (a b : str) : str :=
  if startswith b [sep] then b
  else if bool_decide (a = []) || endswith a [sep] then a ++ b
  else a ++ sep :: b.

(** The loop of [genericpath._splitext] that skips the leading dots of
    the file name: is there a character other than a dot in
    p[filenameIndex:dotIndex]? *)
Definition has_stem (p : str) (filenameIndex dotIndex : nat) : bool :=
  existsb (λ c, negb (c =? extsep))
          (take (dotIndex - filenameIndex) (drop filenameIndex p)).

(** [os.path.splitext(p)] *)
Definition splitext (p : str) : str * str :=
  match rfind extsep p with
  | None => (p, [])
  | Some dotIndex =>
    let filenameIndex :=
      match rfind sep p with Some sepIndex => S sepIndex | None => 0%nat end in
    if bool_decide (filenameIndex ≤ dotIndex)%nat && has_stem p filenameIndex dotIndex
    then (take dotIndex p, drop dotIndex p)
    else (p, [])
  end.

End Path.

(** ** Ledger *)

Module Ledger.

(** One row of download.xlsx. The columns are 应用名, 下载链接, 下载状态 and
    安装状态; every cell is taken to hold text, the empty text for a blank
    cell. This is the frame that the program gets from a workbook whose
    names are plain texts and whose other cells are blank or plain texts
    ([Pandas.plain_row]); what [read_excel] makes of other cells is in
    [Pandas]. *)
Record Row := {
  row_name : str;              (* 应用名 *)
  row_url : str;               (* 下载链接 *)
  row_download_status : str;   (* 下载状态 *)
  row_install_status : str     (* 安装状态 *)
}.

(** A DataFrame with the default RangeIndex: row [i] has label [i]. *)
Abbreviation DataFrame := (list Row).

Global Instance Row_eq_dec : EqDecision Row.
Proof. solve_decision. Defined.

(** [df[df['应用名'] == app_name]] *)
Definition rows_named (app_name : str) (df : DataFrame) : DataFrame :=
  filter (λ r, row_name r = app_name) df.

(** [df[df['应用名'] == app_name].index[0]], [None] when
    [app_name in df['应用名'].values] is false. *)
Definition name_index (df : DataFrame) (app_name : str) : option nat :=
  fst <$> list_find (λ r, row_name r = app_name) df.

(** The two assignments [df.at[index, '下载状态'] = download_status] and
    [df.at[index, '安装状态'] = install_status] on one row. *)
Definition set_status (download_status install_status : str) (r : Row) : Row :=
  {| row_name := row_name r;
     row_url := row_url r;
     row_download_status := download_status;
     row_install_status := install_status |}.

(** The one-row frame that is concatenated when the name is new. *)
Definition new_row (app_name url download_status install_status : str) : Row :=
  {| row_name := app_name;
     row_url := url;
     row_download_status := download_status;
     row_install_status := install_status |}.

(** What [update_excel_status] does to the frame it has read, for a frame
    of text: line 81 then compares texts. [Pandas.update] is the same on
    the values that [read_excel] returns in general. *)
Definition upsert (df : DataFrame)
    (app_name url download_status install_status : str) : DataFrame :=
  match name_index df app_name with
  | Some index => alter (set_status download_status install_status) index df
  | None => df ++ [new_row app_name url download_status install_status]
  end.

End Ledger.
Export Ledger.

(** ** Cells of the workbook *)

Module Pandas.

(** [Ledger] takes every cell as the text that is in it. [pd.read_excel]
    is called with its defaults, which read some texts as missing and
    turn columns of numerals into numbers; this module follows one
    workbook through [read_excel], lines 81 to 95 and [to_excel] cell by
    cell. Cells are blank, text or numbers; the numbers are a parameter.
    A column that pandas turns into booleans is not followed: reading it
    gives [None] here. *)

(** What a cell of the worksheet holds. *)
Inductive Cell (number : Type) :=
| Blank
| TextCell (s : str)
| NumCell (n : number).

(** What the program gets for a cell: [nan], a [str] or a number. *)
Inductive Value (number : Type) :=
| NaN
| Str (s : str)
| Num (n : number).

Arguments Blank {number}.
Arguments TextCell {number} s.
Arguments NumCell {number} n.
Arguments NaN {number}.
Arguments Str {number} s.
Arguments Num {number} n.

(** The four columns 应用名, 下载链接, 下载状态 and 安装状态 of one row. *)
Record Entry (A : Type) := {
  e_name : A;
  e_url : A;
  e_download_status : A;
  e_install_status : A
}.

Arguments e_name {A} e.
Arguments e_url {A} e.
Arguments e_download_status {A} e.
Arguments e_install_status {A} e.

(** The rows under the header, in the file and as a DataFrame. *)
Abbreviation Sheet number := (list (Entry (Cell number))).
Abbreviation Frame number := (list (Entry (Value number))).

(** The tables of the parser, which the program leaves at their defaults:
    the texts that stand for a missing value ([na_values] with
    [keep_default_na=True]), the number a text converts to, and the texts
    that stand for a boolean ([true_values] and [false_values]). *)
Record Parser (number : Type) := {
  na_value : str → bool;
  numeric : str → option number;
  boolean : str → bool
}.

Arguments na_value {number} p s.
Arguments numeric {number} p s.
Arguments boolean {number} p s.

Section Cells.

Context {number : Type} `{EqDecision number}.

Global Instance Cell_eq_dec : EqDecision (Cell number).
Proof. solve_decision. Defined.

Global Instance Value_eq_dec : EqDecision (Value number).
Proof. solve_decision. Defined.

Global Instance Entry_eq_dec {A} `{EqDecision A} : EqDecision (Entry A).
Proof. solve_decision. Defined.

Variable parser : Parser number.

(** A cell in a column that converts to numbers as a whole; [None] when
    the cell holds a text that is no numeral. *)
Definition to_number (c : Cell number) : option (Value number) :=
  match c with
  | Blank => Some NaN
  | NumCell n => Some (Num n)
  | TextCell s => if na_value parser s then Some NaN else Num <$> numeric parser s
  end.

(** A cell in a column that stays a column of objects. *)
Definition to_object (c : Cell number) : Value number :=
  match c with
  | Blank => NaN
  | NumCell n => Num n
  | TextCell s => if na_value parser s then NaN else Str s
  end.

(** No cell of the column holds a text other than the missing values and
    the booleans. *)
Definition booleans (col : list (Cell number)) : bool :=
  forallb (λ c, match c with
                | TextCell s => na_value parser s || boolean parser s
                | _ => true
                end) col.

(** Type inference is by column: the whole column becomes numeric when
    every cell that is not missing converts. Otherwise the column is tried
    as booleans, which stops at the first text that is none; its texts
    then stay as they are, apart from the missing ones. *)
Definition parse_column (col : list (Cell number)) : option (list (Value number)) :=
  match mapM to_number col with
  | Some values => Some values
  | None => if booleans col then None else Some (to_object <$> col)
  end.

Definition rows_of_columns {A} (names urls download install : list A) : list (Entry A) :=
  zip_with (λ a b, {| e_name := a.1; e_url := a.2;
                      e_download_status := b.1; e_install_status := b.2 |})
    (zip names urls) (zip download install).

(** [pd.read_excel(excel_file)], when it returns. *)
Definition read_excel (sheet : Sheet number) : option (Frame number) :=
  names ← parse_column (e_name <$> sheet);
  urls ← parse_column (e_url <$> sheet);
  download ← parse_column (e_download_status <$> sheet);
  install ← parse_column (e_install_status <$> sheet);
  Some (rows_of_columns names urls download install).

(** What [to_excel] writes for a value: [nan] leaves the cell blank. *)
Definition to_cell (v : Value number) : Cell number :=
  match v with
  | NaN => Blank
  | Str s => TextCell s
  | Num n => NumCell n
  end.

(** [df.to_excel(excel_file, index=False)], when it returns. *)
Definition to_excel (df : Frame number) : Sheet number :=
  (λ r, {| e_name := to_cell (e_name r); e_url := to_cell (e_url r);
           e_download_status := to_cell (e_download_status r);
           e_install_status := to_cell (e_install_status r) |}) <$> df.

(** [x == y] on the values of a column: [nan] equals nothing, a [str]
    equals no number. *)
Definition value_eqb (x y : Value number) : bool :=
  match x, y with
  | Str s, Str s' => bool_decide (s = s')
  | Num n, Num n' => bool_decide (n = n')
  | _, _ => false
  end.

(** [df[df['应用名'] == app_name].index[0]], [None] when
    [app_name in df['应用名'].values] is false. *)
Definition name_index (df : Frame number) (app_name : Value number) : option nat :=
  fst <$> list_find (λ r, value_eqb (e_name r) app_name = true) df.

(** Lines 84 and 85. The assignment is taken to succeed on a column that
    held no text so far, as it does in pandas before 3.0. *)
Definition set_status (download_status install_status : str)
    (r : Entry (Value number)) : Entry (Value number) :=
  {| e_name := e_name r; e_url := e_url r;
     e_download_status := Str download_status;
     e_install_status := Str install_status |}.

(** Lines 81 to 95. *)
Definition update (df : Frame number) (app_name url : Value number)
    (download_status install_status : str) : Frame number :=
  match name_index df app_name with
  | Some index => alter (set_status download_status install_status) index df
  | None =>
    df ++ [ {| e_name := app_name; e_url := url;
               e_download_status := Str download_status;
               e_install_status := Str install_status |} ]
  end.

(** What one call of [update_excel_status] makes of the workbook, when
    reading and writing succeed. *)
Definition update_excel_status (sheet : Sheet number) (app_name url : Value number)
    (download_status install_status : str) : option (Sheet number) :=
  df ← read_excel sheet;
  Some (to_excel (update df app_name url download_status install_status)).

(** Line 189 of [install_apk]. *)
Definition lookup_url (df : Frame number) (app_name : Value number) : Value number :=
  match list_find (λ r, value_eqb (e_name r) app_name = true) df with
  | Some (_, r) => e_url r
  | None => Str (u "本地安装")
  end.

(** Lines 188 to 191 of [install_apk]: what the task makes of the workbook
    [sheet] once [install_app] has returned [install_status]; [df] is the
    frame read before the tasks started. *)
Definition install_apk_ledger (df : Frame number) (sheet : Sheet number)
    (apk_file install_status : str) : option (Sheet number) :=
  let app_name := (Path.splitext apk_file).1 in
  let url := lookup_url df (Str app_name) in
  update_excel_status sheet (Str app_name) url (u "已下载") install_status.

End Cells.

(** The text frames of [Ledger] as worksheets and as frames of values: a
    cell with the empty text is a blank cell. *)
Definition cell_of {number} (s : str) : Cell number :=
  if bool_decide (s = []) then Blank else TextCell s.

Definition value_of {number} (s : str) : Value number :=
  if bool_decide (s = []) then NaN else Str s.

Definition sheet_of {number} (df : DataFrame) : Sheet number :=
  (λ r, {| e_name := cell_of (row_name r); e_url := cell_of (row_url r);
           e_download_status := cell_of (row_download_status r);
           e_install_status := cell_of (row_install_status r) |}) <$> df.

Definition frame_of {number} (df : DataFrame) : Frame number :=
  (λ r, {| e_name := value_of (row_name r); e_url := value_of (row_url r);
           e_download_status := value_of (row_download_status r);
           e_install_status := value_of (row_install_status r) |}) <$> df.

(** A text that the parser hands back as it is, whatever else is in its
    column: it is not empty, does not stand for a missing value or for a
    boolean and is no numeral. *)
Definition plain {number} (parser : Parser number) (s : str) : Prop :=
  s ≠ [] ∧ na_value parser s = false ∧ numeric parser s = None
  ∧ boolean parser s = false.

(** A row with such a name whose other cells are blank or hold such a
    text. *)
Definition plain_row {number} (parser : Parser number) (r : Row) : Prop :=
  plain parser (row_name r)
  ∧ (row_url r = [] ∨ plain parser (row_url r))
  ∧ (row_download_status r = [] ∨ plain parser (row_download_status r))
  ∧ (row_install_status r = [] ∨ plain parser (row_install_status r)).

End Pandas.

(** ** Effects *)

Module Effects.

(** *** Exceptions *)

(** The classes that matter to the handlers of the program. All of them
    derive from [Exception]. *)
Inductive exn_class :=
| CalledProcessError      (* subprocess: non-zero exit under check=True *)
| FileNotFoundError
| OSError
| TypeError
| ValueError
| IndexError
| EOFError
| UnicodeDecodeError
| RequestException.       (* requests: connection, timeout, HTTP status *)

Global Instance exn_class_eq_dec : EqDecision exn_class.
Proof. solve_decision. Defined.

Record exn := Exn { exn_class_of : exn_class; exn_str : str (* str(e) *) }.

Inductive Result (A : Type) :=
| Ok (a : A)
| Err (e : exn).
Arguments Ok {A} a.
Arguments Err {A} e.

(** *** The outside world *)

(** What [subprocess.run] hands back: the exit status, and the outcome of
    [result.stdout.decode()]. *)
Record CompletedProcess := {
  returncode : Z;
  stdout_decode : exn + str
}.

(** An HTTP response as [download_app] looks at it. The body is the finite
    sequence of chunks that [iter_content] yields, followed by normal
    exhaustion or by an exception of the transport. *)
Record Response := {
  raise_for_status : option exn;
  content_length : exn + Z;     (* int(headers.get('content-length', 0)) *)
  iter_content : list (list N);
  iter_error : option exn
}.

(** A file holds bytes or is a workbook. A workbook is kept as the frame
    of text that is read from it and written to it; reading a missing file
    or a file of bytes raises, and writing a workbook is taken to
    succeed. *)
Inductive FileContent :=
| Bytes (b : list N)
| Workbook (df : DataFrame).

(** The variables that the nested task functions declare [nonlocal]. *)
Inductive cell :=
| download_success | download_failure
| total_installs | install_success | install_failure.

Record Cells := {
  c_download_success : Z; c_download_failure : Z;
  c_total_installs : Z; c_install_success : Z; c_install_failure : Z
}.

Definition get_cell (v : cell) (c : Cells) : Z :=
  match v with
  | download_success => c_download_success c
  | download_failure => c_download_failure c
  | total_installs => c_total_installs c
  | install_success => c_install_success c
  | install_failure => c_install_failure c
  end.

Definition set_cell (v : cell) (z : Z) (c : Cells) : Cells :=
  match v with
  | download_success =>
    {| c_download_success := z; c_download_failure := c_download_failure c;
       c_total_installs := c_total_installs c; c_install_success := c_install_success c;
       c_install_failure := c_install_failure c |}
  | download_failure =>
    {| c_download_success := c_download_success c; c_download_failure := z;
       c_total_installs := c_total_installs c; c_install_success := c_install_success c;
       c_install_failure := c_install_failure c |}
  | total_installs =>
    {| c_download_success := c_download_success c; c_download_failure := c_download_failure c;
       c_total_installs := z; c_install_success := c_install_success c;
       c_install_failure := c_install_failure c |}
  | install_success =>
    {| c_download_success := c_download_success c; c_download_failure := c_download_failure c;
       c_total_installs := c_total_installs c; c_install_success := z;
       c_install_failure := c_install_failure c |}
  | install_failure =>
    {| c_download_success := c_download_success c; c_download_failure := c_download_failure c;
       c_total_installs := c_total_installs c; c_install_success := c_install_success c;
       c_install_failure := z |}
  end.

(** Console output, one constructor per print site, carrying the values
    that the f-string interpolates. *)
Inductive console_msg :=
| MsgDetecting                                  (* 检测设备中... *)
| MsgNoDevice                                   (* 未检测到设备... *)
| MsgManyDevices (n : nat)                      (* 检测到 n 台设备... *)
| MsgOneDevice (device_id : str)                (* 检测到一台设备：... *)
| MsgDetectError (e : exn)                      (* 检测设备时出错: e *)
| MsgDownloading (app_name : str)               (* 正在下载 ... *)
| MsgProgressBar (app_name : str) (total : Z)   (* tqdm(desc, total, ...) *)
| MsgProgress (n : nat)                         (* bar.update(n) *)
| MsgDownloaded (app_name file_path : str)      (* ... 下载完成, 保存在 ... *)
| MsgDownloadFailed (app_name : str) (e : exn)  (* 下载 ... 失败: e *)
| MsgInstalling (apk_path : str)                (* 正在安装 ... *)
| MsgInstalled (apk_path : str)                 (* ... 安装完成 *)
| MsgInstallFailed (apk_path : str) (e : exn)   (* 安装 ... 失败: e *)
| MsgStatusUpdated (app_name download_status install_status : str)
| MsgNoExcel                                    (* 未找到 download.xlsx 文件 *)
| MsgExcelCreating (excel_file : str)
| MsgExcelCreated (excel_file : str)
| MsgNoApk                                      (* 当前目录未找到任何 APK 文件 *)
| MsgApkStatus (apk_file install_status : str)
| MsgDownloadSummary (success failure total : Z) (* 下载完成: 成功 .. 失败 .. 总计 .. *)
| MsgInstallSummary (success failure total : Z)  (* 安装完成: 成功 .. 失败 .. 总计 .. *)
| MsgNoApkToDelete
| MsgToDelete (apk_files : list str)
| MsgDeleted (apk : str)
| MsgDeleteError (apk : str) (e : exn)
| MsgDeleteCancelled
| MsgInvalidInput
| MsgContact | MsgMenu | MsgQuit | MsgInvalidChoice.

Record World := {
  clock : nat;                     (* external calls made so far *)
  console : list console_msg;      (* what has been printed, oldest first *)
  files : gmap (list N) FileContent;   (* the file system, by path *)
  spawned : list (list str);       (* command lines run so far *)
  requested : list str;            (* URLs requested so far *)
  cells : Cells
}.

(** The behaviour of everything outside the program. Each oracle is
    indexed by the clock, so the same call may succeed once and fail
    later. *)
Record Env := {
  env_run : nat → list str → exn + CompletedProcess;
  env_get : nat → str → exn + Response;
  env_open : nat → str → option exn;
  env_write : nat → str → list N → option exn;
  env_remove : nat → str → option exn;
  env_input : nat → str → exn + str;
  env_cwd : str;                       (* os.getcwd() *)
  env_lower : N → str;                 (* Unicode lower-case table *)
  env_cpe_str : list str → Z → str     (* str(CalledProcessError(code, cmd)) *)
}.

(** *** Atomic actions *)

Inductive Op : Type → Type :=
| Print (m : console_msg) : Op unit
| Input (prompt : str) : Op str
| SubprocessRun (args : list str) (check : bool) : Op CompletedProcess
| RequestsGet (url : str) : Op Response
| OpenWb (path : str) : Op unit
| FileWrite (path : str) (data : list N) : Op unit
| PathExists (path : str) : Op bool
| Listdir (path : str) : Op (list str)
| Remove (path : str) : Op unit
| ReadExcel (path : str) : Op DataFrame
| ToExcel (path : str) (df : DataFrame) : Op unit
| Load (v : cell) : Op Z
| Store (v : cell) (z : Z) : Op unit.

Definition tick (w : World) : World :=
  {| clock := S (clock w); console := console w; files := files w;
     spawned := spawned w; requested := requested w; cells := cells w |}.

Definition with_console (c : list console_msg) (w : World) : World :=
  {| clock := clock w; console := c; files := files w;
     spawned := spawned w; requested := requested w; cells := cells w |}.

Definition with_files (f : gmap (list N) FileContent) (w : World) : World :=
  {| clock := clock w; console := console w; files := f;
     spawned := spawned w; requested := requested w; cells := cells w |}.

Definition with_spawned (s : list (list str)) (w : World) : World :=
  {| clock := clock w; console := console w; files := files w;
     spawned := s; requested := requested w; cells := cells w |}.

Definition with_requested (r : list str) (w : World) : World :=
  {| clock := clock w; console := console w; files := files w;
     spawned := spawned w; requested := r; cells := cells w |}.

Definition with_cells (c : Cells) (w : World) : World :=
  {| clock := clock w; console := console w; files := files w;
     spawned := spawned w; requested := requested w; cells := c |}.

(** The entry of directory [dir] that [path] names, if it names one. *)
Definition entry_of (dir path : str) : option str :=
  let prefix :=
    if bool_decide (dir = []) || endswith dir [Path.sep] then dir
    else dir ++ [Path.sep] in
  let name := drop (length prefix) path in
  if startswith path prefix && negb (bool_decide (name = []))
     && negb (bool_decide (Path.sep ∈ name))
  then Some name else None.

Definition listdir (f : gmap (list N) FileContent) (dir : str) : list str :=
  omap (λ kv, entry_of dir kv.1) (map_to_list f).

Definition of_option {R} (o : option exn) (r : R) : exn + R :=
  match o with Some e => inl e | None => inr r end.

Definition exec (env : Env) {R} (op : Op R) (w : World) : (exn + R) * World :=
  match op in Op R return (exn + R) * World with
  | Print m => (inr tt, with_console (console w ++ [m]) w)
  | Input prompt => (env_input env (clock w) prompt, tick w)
  | SubprocessRun args check =>
    (match env_run env (clock w) args with
     | inr result =>
       if check && negb (returncode result =? 0)%Z
       then inl (Exn CalledProcessError (env_cpe_str env args (returncode result)))
       else inr result
     | inl e => inl e
     end,
     tick (with_spawned (spawned w ++ [args]) w))
  | RequestsGet url =>
    (env_get env (clock w) url, tick (with_requested (requested w ++ [url]) w))
  | OpenWb path =>
    match env_open env (clock w) path with
    | Some e => (inl e, tick w)
    | None => (inr tt, tick (with_files (<[path := Bytes []]> (files w)) w))
    end
  | FileWrite path data =>
    match env_write env (clock w) path data with
    | Some e => (inl e, tick w)
    | None =>
      let old := match files w !! path with Some (Bytes b) => b | _ => [] end in
      (inr tt, tick (with_files (<[path := Bytes (old ++ data)]> (files w)) w))
    end
  | PathExists path => (inr (bool_decide (is_Some (files w !! path))), w)
  | Listdir dir => (inr (listdir (files w) dir), w)
  | Remove path =>
    match env_remove env (clock w) path with
    | Some e => (inl e, tick w)
    | None =>
      match files w !! path with
      | Some _ => (inr tt, tick (with_files (delete path (files w)) w))
      | None => (inl (Exn FileNotFoundError path), tick w)
      end
    end
  | ReadExcel path =>
    match files w !! path with
    | Some (Workbook df) => (inr df, w)
    | Some (Bytes _) => (inl (Exn ValueError path), w)
    | None => (inl (Exn FileNotFoundError path), w)
    end
  | ToExcel path df => (inr tt, with_files (<[path := Workbook df]> (files w)) w)
  | Load v => (inr (get_cell v (cells w)), w)
  | Store v z => (inr tt, with_cells (set_cell v z (cells w)) w)
  end.

(** *** Programs *)

(** A program is a tree of atomic actions; the continuation of an action
    receives its result or the exception it raised. *)
Inductive Prog (A : Type) : Type :=
| Ret (a : A)
| Raise (e : exn)
| Vis {R : Type} (op : Op R) (k : exn + R → Prog A).
Arguments Ret {A} a.
Arguments Raise {A} e.
Arguments Vis {A R} op k.

Fixpoint bind {A B} (p : Prog A) (f : A → Prog B) : Prog B :=
  match p with
  | Ret a => f a
  | Raise e => Raise e
  | Vis op k => Vis op (λ r, bind (k r) f)
  end.

(** [try: p except <classes> as e: h e]. An exception of a class that
    the clause does not name passes through. *)
Fixpoint try_except {A} (p : Prog A) (handles : exn_class → bool)
    (h : exn → Prog A) : Prog A :=
  match p with
  | Ret a => Ret a
  | Raise e => if handles (exn_class_of e) then h e else Raise e
  | Vis op k => Vis op (λ r, try_except (k r) handles h)
  end.

(** [except Exception] names every class of the model. *)
Definition Exception : exn_class → bool := λ _, true.

Definition only (c : exn_class) : exn_class → bool := λ c', bool_decide (c' = c).

(** An external call: an exception of the call is raised in the program. *)
Definition call {R} (op : Op R) : Prog R :=
  Vis op (λ r, match r with inl e => Raise e | inr x => Ret x end).

Definition print (m : console_msg) : Prog unit := call (Print m).

(** [for x in l: body x] *)
Fixpoint for_each {X} (l : list X) (body : X → Prog unit) : Prog unit :=
  match l with
  | [] => Ret tt
  | x :: l' => bind (body x) (λ _, for_each l' body)
  end.

(** Sequential execution. *)
Fixpoint run (env : Env) {A} (p : Prog A) (w : World) : Result A * World :=
  match p with
  | Ret a => (Ok a, w)
  | Raise e => (Err e, w)
  | Vis op k => let '(r, w') := exec env op w in run env (k r) w'
  end.

(** One atomic action of a program. *)
Definition step (env : Env) {A} (p : Prog A) (w : World) : Prog A * World :=
  match p with
  | Vis op k => let '(r, w') := exec env op w in (k r, w')
  | _ => (p, w)
  end.

Definition finished {A} (p : Prog A) : bool :=
  match p with Vis _ _ => false | _ => true end.

(** *** The worker pool

    [ThreadPoolExecutor(max_workers=5)]: tasks are taken in the order of
    their submission, at most five are in progress at a time, and the
    threads interleave between atomic actions. A schedule names, action by
    action, the task that moves next. *)
Record task := { started : bool; code : Prog unit }.

Definition max_workers : nat := 5.

Definition in_progress (t : task) : bool := started t && negb (finished (code t)).

Definition can_move (ts : list task) (i : nat) : bool :=
  match ts !! i with
  | None => false
  | Some t =>
    started t ||
    (forallb started (take i ts)
     && bool_decide (length (filter (λ t, in_progress t = true) ts) < max_workers)%nat)
  end.

Definition pool_step (env : Env) (i : nat) (st : list task * World) : list task * World :=
  let '(ts, w) := st in
  if can_move ts i then
    match ts !! i with
    | Some t =>
      let '(p, w') := step env (code t) w in
      (<[i := {| started := true; code := p |}]> ts, w')
    | None => st
    end
  else st.

(** When the schedule is exhausted the unfinished tasks are completed one
    after the other, in the order of submission. *)
Fixpoint drain (env : Env) (ts : list task) (w : World) : list (Result unit) * World :=
  match ts with
  | [] => ([], w)
  | t :: ts' =>
    let '(r, w') := run env (code t) w in
    let '(rs, w'') := drain env ts' w' in
    (r :: rs, w'')
  end.

Definition run_pool (env : Env) (schedule : list nat) (tasks : list (Prog unit))
    (w : World) : list (Result unit) * World :=
  let '(ts, w') :=
    foldl (λ st i, pool_step env i st) ((λ p, {| started := false; code := p |}) <$> tasks, w)
          schedule in
  drain env ts w'.

(** [for future in futures: future.result()]: the first exception, in the
    order of submission, is raised in the caller once the pool has shut
    down. *)
Fixpoint first_error (rs : list (Result unit)) : Result unit :=
  match rs with
  | [] => Ok tt
  | Ok _ :: rs' => first_error rs'
  | Err e :: _ => Err e
  end.

(** *** Functions that run at top level *)

Definition M (A : Type) : Type := World → Result A * World.

Definition top_ret {A} (a : A) : M A := λ w, (Ok a, w).

Definition top_bind {A B} (m : M A) (f : A → M B) : M B :=
  λ w, match m w with
       | (Ok a, w') => f a w'
       | (Err e, w') => (Err e, w')
       end.

(** Every atomic action that a program can reach satisfies [P]. *)
Fixpoint all_ops {A} (P : ∀ R, Op R → Prop) (p : Prog A) : Prop :=
  match p with
  | Vis op k => P _ op ∧ ∀ r, all_ops P (k r)
  | _ => True
  end.

(** Classes of actions by what they leave alone. *)
Definition no_spawn R (op : Op R) : Prop :=
  match op with SubprocessRun _ _ => False | _ => True end.

Definition no_store R (op : Op R) : Prop :=
  match op with Store _ _ => False | _ => True end.

Definition no_print R (op : Op R) : Prop :=
  match op with Print _ => False | _ => True end.

Definition leaves_file (path : str) R (op : Op R) : Prop :=
  match op with
  | OpenWb p | FileWrite p _ | Remove p | ToExcel p _ => p ≠ path
  | _ => True
  end.

Definition leaves_files R (op : Op R) : Prop :=
  match op with
  | OpenWb _ | FileWrite _ _ | Remove _ | ToExcel _ _ => False
  | _ => True
  end.

Definition not_installing R (op : Op R) : Prop :=
  match op with Print (MsgInstalling _) => False | _ => True end.

Definition quiet R (op : Op R) : Prop := no_spawn R op ∧ not_installing R op.

Definition no_request R (op : Op R) : Prop :=
  match op with RequestsGet _ => False | _ => True end.

(** The package paths that [install_app] has been called with, read off
    the message it prints on entry. *)
Definition install_attempts (w : World) : list str :=
  omap (λ m, match m with MsgInstalling apk_path => Some apk_path | _ => None end)
       (console w).

(** Tallies over the counters. *)
Definition downloads_counted (c : Cells) : Z :=
  (c_download_success c + c_download_failure c)%Z.

Definition installs_balance (c : Cells) : Z :=
  (c_install_success c + c_install_failure c - c_total_installs c)%Z.

Global Instance Prog_ret : MRet Prog := @Ret.
Global Instance Prog_bind : MBind Prog := λ A B f p, bind p f.
Global Instance M_ret : MRet M := @top_ret.
Global Instance M_bind : MBind M := λ A B f m, top_bind m f.

End Effects.
Export Effects.

(** ** The tool *)

Module Tool.

(** [if x:] on a value that is [None] or a string. *)
Definition truthy (x : option str) : bool :=
  match x with
  | Some (_ :: _) => true
  | _ => false
  end.

(** [v += 1] on a nonlocal variable: a read, then a write. *)
Definition incr (v : cell) : Prog unit :=
  x ← call (Load v);
  call (Store v (x + 1)%Z).

Definition raise_if (o : option exn) : Prog unit :=
  match o with
  | Some e => Raise e
  | None => Ret tt
  end.

Definition value_of {R} (r : exn + R) : Prog R :=
  match r with
  | inl e => Raise e
  | inr x => Ret x
  end.

(** [l[0]] *)
Definition first {X} (l : list X) : Prog X :=
  match l with
  | x :: _ => Ret x
  | [] => Raise (Exn IndexError (u "list index out of range"))
  end.

Definition check_device_online : Prog (option str) :=
  try_except
    (print MsgDetecting;;
     result ← call (SubprocessRun [u "adb"; u "devices"] false);
     text ← value_of (stdout_decode result);
     let devices := splitlines text in
     let devices := filter (λ line, endswith line (u "device")) devices in
     if bool_decide (length devices = 0)%nat then
       print MsgNoDevice;;
       Ret None
     else if bool_decide (1 < length devices)%nat then
       print (MsgManyDevices (length devices));;
       Ret None
     else
       line ← first devices;
       device_id ← first (split line);
       print (MsgOneDevice device_id);;
       Ret (Some device_id))
    Exception
    (λ e, print (MsgDetectError e);;
          Ret None).

(** The [try] block of [download_app]. *)
Definition download_app_try (app_name url download_dir : str) (show_progress : bool)
    : Prog (option str * str) :=
  print (MsgDownloading app_name);;
  let file_path := Path.join download_dir (app_name ++ u ".apk") in
  response ← call (RequestsGet url);
  raise_if (raise_for_status response);;
  total_size ← value_of (content_length response);
  call (OpenWb file_path);;
  (if show_progress then
     print (MsgProgressBar app_name total_size);;
     for_each (iter_content response) (λ data,
       call (FileWrite file_path data);;
       print (MsgProgress (length data)))
   else
     for_each (iter_content response) (λ data,
       call (FileWrite file_path data)));;
  raise_if (iter_error response);;
  print (MsgDownloaded app_name file_path);;
  Ret (Some file_path, u "下载成功").

Definition download_app (app_name url download_dir : str) (show_progress : bool)
    : Prog (option str * str) :=
  try_except
    (download_app_try app_name url download_dir show_progress)
    Exception
    (λ e, print (MsgDownloadFailed app_name e);;
          Ret (None, u "下载失败: " ++ exn_str e)).

(** The command line of the install subcommand. *)
Definition install_command (device apk_path : str) : list str :=
  [u "adb"; u "-s"; device; u "install"; apk_path].

(** The [try] block of [install_app]. A [None] among the arguments makes
    [subprocess.run] raise TypeError before any process is started. *)
Definition install_app_try (device_id : option str) (apk_path : str) : Prog str :=
  print (MsgInstalling apk_path);;
  match device_id with
  | Some device =>
    call (SubprocessRun (install_command device apk_path) true);;
    Ret tt
  | None =>
    Raise (Exn TypeError (u "expected str, bytes or os.PathLike object, not NoneType"))
  end;;
  print (MsgInstalled apk_path);;
  Ret (u "安装成功").

Definition install_app (device_id : option str) (apk_path : str) (show_progress : bool)
    : Prog str :=
  try_except
    (install_app_try device_id apk_path)
    (only CalledProcessError)
    (λ e, print (MsgInstallFailed apk_path e);;
          Ret (u "安装失败: " ++ exn_str e)).

Definition update_excel_status
    (excel_file app_name url download_status install_status : str) : Prog unit :=
  df ← call (ReadExcel excel_file);
  let df := upsert df app_name url download_status install_status in
  call (ToExcel excel_file df);;
  print (MsgStatusUpdated app_name download_status install_status).

(** The nested task function of [download_and_install_apps]. *)
Definition process_app (device_id : option str) (download_dir excel_file : str)
    (row : Row) : Prog unit :=
  let app_name := row_name row in
  let url := row_url row in
  '(apk_path, download_status) ← download_app app_name url download_dir true;
  (if contains (u "成功") download_status
   then incr download_success
   else incr download_failure);;
  install_status ←
    (if truthy apk_path then
       install_status ← install_app device_id (default [] apk_path) true;
       incr total_installs;;
       (if contains (u "成功") install_status
        then incr install_success
        else incr install_failure);;
       Ret install_status
     else Ret (u "未安装"));
  update_excel_status excel_file app_name url download_status install_status.

(** The nested task function of [download_apps]. *)
Definition download_apps_process_app (download_dir excel_file : str) (row : Row)
    : Prog unit :=
  let app_name := row_name row in
  let url := row_url row in
  '(apk_path, download_status) ← download_app app_name url download_dir true;
  (if contains (u "成功") download_status
   then incr download_success
   else incr download_failure);;
  update_excel_status excel_file app_name url download_status (u "未安装").

(** [df[df['应用名'] == app_name]['下载链接'].values[0] if app_name in
    df['应用名'].values else "本地安装"], for a frame of text;
    [Pandas.lookup_url] is the same on values in general. *)
Definition url_of (df : DataFrame) (app_name : str) : str :=
  match list_find (λ r, row_name r = app_name) df with
  | Some (_, r) => row_url r
  | None => u "本地安装"
  end.

(** The nested task function of [install_local_apks]; [df] is the frame
    that the enclosing function read before the tasks started. *)
Definition install_apk (device_id : option str) (apk_dir excel_file : str)
    (df : DataFrame) (apk_file : str) : Prog unit :=
  let apk_path := Path.join apk_dir apk_file in
  install_status ← install_app device_id apk_path true;
  let app_name := (Path.splitext apk_file).1 in
  let url := url_of df app_name in
  update_excel_status excel_file app_name url (u "已下载") install_status;;
  (if contains (u "成功") install_status
   then incr install_success
   else incr install_failure);;
  print (MsgApkStatus apk_file install_status).

(** The device that [check_device_online] reports for an outcome of
    running [adb devices]. *)
Definition located (outcome : exn + CompletedProcess) : option str :=
  match outcome with
  | inr result =>
    match stdout_decode result with
    | inr text =>
      match filter (λ line : str, endswith line (u "device")) (splitlines text) with
      | [line] => head (split line)
      | _ => None
      end
    | inl _ => None
    end
  | inl _ => None
  end.

(** The statuses that the download workflows write. *)
Definition download_outcome (status : str) : Prop :=
  status = u "下载成功" ∨ ∃ e, status = u "下载失败: " ++ exn_str e.

(** The first row of a name carries what a download task records. *)
Definition recorded (led : DataFrame) (app_name : str) : Prop :=
  ∃ i r, list_find (λ r, row_name r = app_name) led = Some (i, r)
         ∧ row_install_status r = u "未安装"
         ∧ download_outcome (row_download_status r).

(** The statuses that [install_app] returns. *)
Definition install_outcome (status : str) : Prop :=
  status = u "安装成功" ∨ ∃ text, status = u "安装失败: " ++ text.

(** The first row of a name carries what an install task records. *)
Definition installed (led : DataFrame) (app_name : str) : Prop :=
  ∃ i r, list_find (λ r, row_name r = app_name) led = Some (i, r)
         ∧ row_download_status r = u "已下载"
         ∧ install_outcome (row_install_status r).

(** The pairs of statuses that the task of [download_and_install_apps]
    records: an install status from the installer after a download that
    succeeded, "未安装" after one that failed. *)
Definition outcome_pair (download_status install_status : str) : Prop :=
  (download_status = u "下载成功" ∧ install_outcome install_status)
  ∨ ((∃ e, download_status = u "下载失败: " ++ exn_str e)
     ∧ install_status = u "未安装").

Definition processed (led : DataFrame) (app_name : str) : Prop :=
  ∃ i r, list_find (λ r, row_name r = app_name) led = Some (i, r)
         ∧ outcome_pair (row_download_status r) (row_install_status r).

Definition installs_counted (c : Cells) : Z :=
  (c_install_success c + c_install_failure c)%Z.

Section Top.
Context (env : Env).

(** Either the pool, driven by a schedule, or the plain loop. *)
Definition run_tasks (parallel : bool) (schedule : list nat) (tasks : list (Prog unit))
    : M unit :=
  if parallel then
    λ w, let '(rs, w') := run_pool env schedule tasks w in (first_error rs, w')
  else
    run env (for_each tasks id).

Definition download_and_install_apps (device_id : option str) (download_dir : str)
    (parallel : bool) (schedule : list nat) : M unit :=
  let excel_file := Path.join download_dir (u "download.xlsx") in
  found ← run env (call (PathExists excel_file));
  if negb found then
    run env (print MsgNoExcel)
  else
    df ← run env (call (ReadExcel excel_file));
    let total_downloads := Z.of_nat (length df) in
    run env (call (Store download_success 0%Z);;
             call (Store download_failure 0%Z);;
             call (Store total_installs 0%Z);;
             call (Store install_success 0%Z);;
             call (Store install_failure 0%Z));;
    run_tasks parallel schedule (process_app device_id download_dir excel_file <$> df);;
    run env (
      n_success ← call (Load download_success);
      n_failure ← call (Load download_failure);
      print (MsgDownloadSummary n_success n_failure total_downloads);;
      n_total ← call (Load total_installs);
      n_success ← call (Load install_success);
      n_failure ← call (Load install_failure);
      print (MsgInstallSummary n_success n_failure n_total)).

Definition install_local_apks (device_id : option str) (apk_dir excel_file : str)
    (parallel : bool) (schedule : list nat) : M unit :=
  found ← run env (call (PathExists excel_file));
  (if negb found then
     run env (print (MsgExcelCreating excel_file);;
              call (ToExcel excel_file []);;
              print (MsgExcelCreated excel_file))
   else mret tt);;
  names ← run env (call (Listdir apk_dir));
  let apk_files := filter (λ f, endswith f (u ".apk")) names in
  if bool_decide (apk_files = []) then
    run env (print MsgNoApk)
  else
    df ← run env (call (ReadExcel excel_file));
    let total_installs := Z.of_nat (length apk_files) in
    run env (call (Store install_success 0%Z);;
             call (Store install_failure 0%Z));;
    run_tasks parallel schedule (install_apk device_id apk_dir excel_file df <$> apk_files);;
    run env (
      n_success ← call (Load install_success);
      n_failure ← call (Load install_failure);
      print (MsgInstallSummary n_success n_failure total_installs)).

Definition download_apps (device_id : option str) (download_dir : str)
    (parallel : bool) (schedule : list nat) : M unit :=
  let excel_file := Path.join download_dir (u "download.xlsx") in
  found ← run env (call (PathExists excel_file));
  if negb found then
    run env (print MsgNoExcel)
  else
    df ← run env (call (ReadExcel excel_file));
    let total_downloads := Z.of_nat (length df) in
    run env (call (Store download_success 0%Z);;
             call (Store download_failure 0%Z));;
    run_tasks parallel schedule (download_apps_process_app download_dir excel_file <$> df);;
    run env (
      n_success ← call (Load download_success);
      n_failure ← call (Load download_failure);
      print (MsgDownloadSummary n_success n_failure total_downloads)).

Definition menu_prompt : str := u "输入选项编号：".

Definition delete_prompt : str :=
  u "确认删除这些文件吗？输入 'y' 确认删除，或输入 'n' 取消删除：".

(** The body of the removal loop of [delete_all_apks]. *)
Definition remove_apk (current_dir apk : str) : Prog unit :=
  try_except
    (call (Remove (Path.join current_dir apk));;
     print (MsgDeleted apk))
    Exception
    (λ e, print (MsgDeleteError apk e)).

Definition delete_all_apks (current_dir : str) : Prog unit :=
  names ← call (Listdir current_dir);
  let apk_files := filter (λ f, endswith f (u ".apk")) names in
  if bool_decide (apk_files = []) then
    print MsgNoApkToDelete
  else
    print (MsgToDelete apk_files);;
    answer ← call (Input delete_prompt);
    let confirmation := lower (env_lower env) (strip answer) in
    if bool_decide (confirmation = u "y") then
      for_each apk_files (remove_apk current_dir)
    else if bool_decide (confirmation = u "n") then
      print MsgDeleteCancelled
    else
      print MsgInvalidInput.

(** One turn of the menu loop of [main]; the result tells whether the
    loop goes on. The schedule is the one of the pool that the chosen
    workflow starts. *)
Definition main_iteration (schedule : list nat) : M bool :=
  run env (print MsgMenu);;
  answer ← run env (call (Input (u "输入选项编号：")));
  let choice := lower (env_lower env) (strip answer) in
  if bool_decide (choice = u "q") then
    run env (print MsgQuit);;
    mret false
  else
    let current_dir := env_cwd env in
    let excel_file := Path.join current_dir (u "download.xlsx") in
    (if bool_decide (choice = u "1") then
       download_apps None current_dir true schedule
     else if bool_decide (choice = u "2") then
       device_id ← run env check_device_online;
       if truthy device_id
       then install_local_apks device_id current_dir excel_file true schedule
       else mret tt
     else if bool_decide (choice = u "3") then
       device_id ← run env check_device_online;
       if truthy device_id
       then download_and_install_apps device_id current_dir true schedule
       else mret tt
     else if bool_decide (choice = u "4") then
       run env (delete_all_apks current_dir)
     else
       run env (print MsgInvalidChoice));;
    mret true.

End Top.

End Tool.
Export Tool.

(** ** Concrete scenarios *)

Module Scenario.

Definition work_dir : str := u "/work".

Definition excel_file : str := Path.join work_dir (u "download.xlsx").

Definition app_a : Row :=
  {| row_name := u "a"; row_url := u "http://host/a.apk";
     row_download_status := []; row_install_status := [] |}.

Definition app_b : Row :=
  {| row_name := u "b"; row_url := u "http://host/b.apk";
     row_download_status := []; row_install_status := [] |}.

(** The output of [adb devices] with one emulator attached. *)
Definition one_device_listing : str :=
  u "List of devices attached" ++ [10] ++ u "emulator-5554" ++ [9] ++ u "device"
    ++ [10; 10].

Definition no_counts : Cells :=
  {| c_download_success := 0; c_download_failure := 0;
     c_total_installs := 0; c_install_success := 0; c_install_failure := 0 |}.

(** A fresh world whose only file is the ledger [df]. *)
Definition world_with (df : DataFrame) : World :=
  {| clock := 0; console := []; files := {[ excel_file := Workbook df ]};
     spawned := []; requested := []; cells := no_counts |}.

(** Everything outside works: the bridge tool exits with zero, every URL
    serves a three-byte body, the operator answers "y". *)
Definition env_ok : Env :=
  {| env_run := λ _ _, inr {| returncode := 0; stdout_decode := inr one_device_listing |};
     env_get := λ _ _,
       inr {| raise_for_status := None; content_length := inr 3%Z;
              iter_content := [[80; 75; 3]]; iter_error := None |};
     env_open := λ _ _, None;
     env_write := λ _ _ _, None;
     env_remove := λ _ _, None;
     env_input := λ _ _, inr (u "y");
     env_cwd := work_dir;
     env_lower := λ c, [c];
     env_cpe_str := λ _ _, u "Command returned non-zero exit status" |}.

(** The bridge tool is not installed: starting it raises. *)
Definition env_no_adb : Env :=
  {| env_run := λ _ _, inl (Exn FileNotFoundError (u "No such file or directory: 'adb'"));
     env_get := env_get env_ok;
     env_open := env_open env_ok;
     env_write := env_write env_ok;
     env_remove := env_remove env_ok;
     env_input := env_input env_ok;
     env_cwd := env_cwd env_ok;
     env_lower := env_lower env_ok;
     env_cpe_str := env_cpe_str env_ok |}.

(** The operator types [answer] at every prompt and every run of the
    bridge tool has the outcome [adb]; the rest is as in [env_ok]. *)
Definition env_of (answer : str) (adb : exn + CompletedProcess) : Env :=
  {| env_run := λ _ _, adb;
     env_get := env_get env_ok;
     env_open := env_open env_ok;
     env_write := env_write env_ok;
     env_remove := env_remove env_ok;
     env_input := λ _ _, inr answer;
     env_cwd := env_cwd env_ok;
     env_lower := env_lower env_ok;
     env_cpe_str := env_cpe_str env_ok |}.

(** The bridge tool runs and lists no device. *)
Definition no_device_listing : exn + CompletedProcess :=
  inr {| returncode := 0;
         stdout_decode := inr (u "List of devices attached" ++ [10; 10]) |}.

(** A world with the ledger [df] and one downloaded package, a.apk. *)
Definition world_with_apk (df : DataFrame) : World :=
  with_files (<[Path.join work_dir (u "a.apk") := Bytes [80; 75; 3]]>
                (files (world_with df)))
             (world_with df).

(** A world with no file at all. *)
Definition empty_world : World :=
  {| clock := 0; console := []; files := ∅;
     spawned := []; requested := []; cells := no_counts |}.

(** Two workers of the pool, each stopped between the read and the write
    of its [download_success += 1]: the first eight actions of task 0 (up
    to the read), then the first eight of task 1; the rest follows in
    order. *)
Definition lost_update : list nat := replicate 8 0%nat ++ replicate 8 1%nat.

(** The texts that pandas reads as missing by default (1.x; 2.0 adds
    None). *)
Definition na_values : list str :=
  [ []; u "#N/A"; u "#N/A N/A"; u "#NA"; u "-1.#IND"; u "-1.#QNAN"; u "-NaN";
    u "-nan"; u "1.#IND"; u "1.#QNAN"; u "<NA>"; u "N/A"; u "NA"; u "NULL";
    u "NaN"; u "n/a"; u "nan"; u "null" ].

(** The value of a text of decimal digits. *)
Definition decimal (s : str) : option Z :=
  if bool_decide (s = []) then None
  else foldl (λ acc c, n ← acc;
                if (48 <=? c) && (c <=? 57) then Some (10 * n + Z.of_N (c - 48))%Z
                else None)
             (Some 0%Z) s.

(** The texts that pandas reads as booleans by default. *)
Definition bool_values : list str :=
  [ u "True"; u "TRUE"; u "true"; u "False"; u "FALSE"; u "false" ].

(** A parser with the default missing values and booleans that converts
    the decimal numerals. *)
Definition parser : Pandas.Parser Z :=
  {| Pandas.na_value := λ s, bool_decide (s ∈ na_values);
     Pandas.numeric := decimal;
     Pandas.boolean := λ s, bool_decide (s ∈ bool_values) |}.

(** A row of text cells in the worksheet. *)
Definition text_row (name url download_status install_status : str)
    : Pandas.Entry (Pandas.Cell Z) :=
  {| Pandas.e_name := Pandas.TextCell name;
     Pandas.e_url := Pandas.TextCell url;
     Pandas.e_download_status := Pandas.TextCell download_status;
     Pandas.e_install_status := Pandas.TextCell install_status |}.

(** The same row after pandas has read it with a missing name and
    written it back. *)
Definition nameless_row (url download_status install_status : str)
    : Pandas.Entry (Pandas.Cell Z) :=
  {| Pandas.e_name := Pandas.Blank;
     Pandas.e_url := Pandas.TextCell url;
     Pandas.e_download_status := Pandas.TextCell download_status;
     Pandas.e_install_status := Pandas.TextCell install_status |}.

End Scenario.

(** * Properties *)

(** ** Properties of the string functions *)

Lemma endswith_spec (s suffix : str) :
  endswith s suffix ↔ ∃ p, s = p ++ suffix.
Proof.
  unfold endswith. rewrite bool_decide_spec. split.
  - intros H. exists (take (length s - length suffix) s).
    rewrite <- (take_drop (length s - length suffix) s) at 1. by rewrite H.
  - intros [p ->]. rewrite length_app.
    replace (length p + length suffix - length suffix)%nat with (length p) by lia.
    by rewrite drop_app_length.
Qed.

Lemma startswith_spec (s pre : str) :
  startswith s pre ↔ ∃ r, s = pre ++ r.
Proof.
  unfold startswith. rewrite bool_decide_spec. split.
  - intros H. exists (drop (length pre) s).
    rewrite <- (take_drop (length pre) s) at 1. by rewrite H.
  - intros [r ->]. by rewrite take_app_length.
Qed.

Lemma split_from_nonempty (cur s : str) :
  cur ≠ [] ∨ (∃ c, c ∈ s ∧ isspace c = false) → split_from cur s ≠ [].
Proof.
  revert cur. induction s as [|c s IH]; intros cur H; simpl.
  - destruct H as [H|(c & Hc & _)]; [|by apply elem_of_nil in Hc].
    by destruct cur.
  - destruct (isspace c) eqn:Hsp.
    + destruct cur; [|done]. apply IH. right.
      destruct H as [H|(d & Hd & Hd')]; [done|].
      apply elem_of_cons in Hd as [->|Hd]; [congruence|eauto].
    + apply IH. by left.
Qed.

(** A line that ends with "device" has a first token. *)
Lemma split_device_line (line : str) :
  endswith line (u "device") → ∃ tok rest, split line = tok :: rest.
Proof.
  intros [p ->]%endswith_spec.
  destruct (split (p ++ u "device")) as [|tok rest] eqn:E; [|eauto].
  exfalso. revert E. apply split_from_nonempty. right.
  exists 100. split; [|done].
  apply elem_of_app. right. vm_compute. apply elem_of_cons. by left.
Qed.

Lemma join_suffix (a b : str) : ∃ p, Path.join a b = p ++ b.
Proof.
  unfold Path.join.
  destruct (startswith b [Path.sep]); [by exists []|].
  destruct (_ || _); [by exists a|].
  exists (a ++ [Path.sep]). by rewrite <- app_assoc.
Qed.



(** The package file of an application is never the ledger file. *)
Lemma apk_path_not_excel (download_dir app_name : str) :
  Path.join download_dir (app_name ++ u ".apk")
  ≠ Path.join download_dir (u "download.xlsx").
Proof.
  destruct (join_suffix download_dir (app_name ++ u ".apk")) as [p ->].
  destruct (join_suffix download_dir (u "download.xlsx")) as [q ->].
  intros E. apply (f_equal last) in E.
  rewrite !app_assoc in E.
  change (u ".apk") with ([46; 97; 112] ++ [107]) in E.
  change (u "download.xlsx") with (u "download.xls" ++ [120]) in E.
  rewrite !app_assoc, !last_snoc in E. done.
Qed.

(** ** Properties of the ledger update *)

Lemma name_index_Some (df : DataFrame) (app_name : str) (i : nat) :
  name_index df app_name = Some i →
  ∃ r, df !! i = Some r ∧ row_name r = app_name.
Proof.
  unfold name_index. destruct (list_find _ df) as [[j r]|] eqn:E; [|done].
  intros [= <-]. apply list_find_Some in E as (? & ? & _). eauto.
Qed.

Lemma name_index_is_Some (df : DataFrame) (app_name : str) :
  is_Some (name_index df app_name) ↔ app_name ∈ (row_name <$> df).
Proof.
  unfold name_index. rewrite fmap_is_Some. split.
  - intros [[i r] (H & <- & _)%list_find_Some].
    apply list_elem_of_fmap. exists r. split; [done|].
    by eapply list_elem_of_lookup_2.
  - intros (r & -> & Hr)%list_elem_of_fmap.
    destruct (list_find (λ r0, row_name r0 = row_name r) df) eqn:E; [eauto|].
    eapply list_find_None, Forall_forall in E; [|done]. done.
Qed.

Lemma name_index_rows_named (df : DataFrame) (app_name : str) :
  name_index df app_name = None ↔ rows_named app_name df = [].
Proof.
  unfold name_index, rows_named. induction df as [|r df IH]; [done|].
  simpl. rewrite filter_cons.
  destruct (decide (row_name r = app_name)); [done|].
  rewrite <- IH. by destruct (list_find _ df) as [[??]|].
Qed.

Section Upsert.
Context (app_name url download_status install_status : str).

Lemma upsert_nil :
  upsert [] app_name url download_status install_status = [new_row app_name url download_status install_status].
Proof. reflexivity. Qed.

Lemma upsert_cons (r : Row) (df : DataFrame) :
  upsert (r :: df) app_name url download_status install_status =
  if decide (row_name r = app_name)
  then set_status download_status install_status r :: df
  else r :: upsert df app_name url download_status install_status.
Proof.
  unfold upsert, name_index. simpl.
  destruct (decide (row_name r = app_name)); [done|].
  destruct (list_find _ df) as [[i x]|]; done.
Qed.

Lemma upsert_length (df : DataFrame) :
  length (upsert df app_name url download_status install_status) =
  match name_index df app_name with
  | Some _ => length df
  | None => S (length df)
  end.
Proof.
  unfold upsert. destruct (name_index df app_name).
  - apply length_alter.
  - rewrite length_app. simpl. lia.
Qed.

(** The rows for the name of the update: the first is rewritten, or a
    single one appears. *)
Lemma rows_named_upsert (df : DataFrame) :
  rows_named app_name (upsert df app_name url download_status install_status) =
  match rows_named app_name df with
  | [] => [new_row app_name url download_status install_status]
  | r :: rs => set_status download_status install_status r :: rs
  end.
Proof.
  unfold rows_named. induction df as [|r df IH].
  - rewrite upsert_nil. by rewrite filter_cons_True.
  - rewrite upsert_cons, (filter_cons _ r df).
    destruct (decide (row_name r = app_name)).
    + by rewrite filter_cons_True.
    + by rewrite filter_cons_False.
Qed.

(** The rows of any other name are the same rows. *)
Lemma rows_named_upsert_other (other : str) (df : DataFrame) :
  other ≠ app_name →
  rows_named other (upsert df app_name url download_status install_status) =
  rows_named other df.
Proof.
  intros Hne. unfold rows_named. induction df as [|r df IH].
  - rewrite upsert_nil. by rewrite filter_cons_False by (simpl; congruence).
  - rewrite upsert_cons, (filter_cons _ r df).
    destruct (decide (row_name r = app_name)) as [E|E].
    + rewrite filter_cons_False by (simpl; congruence).
      by rewrite decide_False by congruence.
    + rewrite filter_cons. by rewrite IH.
Qed.


End Upsert.

Lemma list_find_upsert_other (app_name url ds is' other : str) (df : DataFrame) :
  other ≠ app_name →
  snd <$> list_find (λ r, row_name r = other) (upsert df app_name url ds is') =
  snd <$> list_find (λ r, row_name r = other) df.
Proof.
  intros Hne. induction df as [|r df IH].
  - rewrite upsert_nil. simpl. by rewrite decide_False by congruence.
  - rewrite upsert_cons.
    destruct (decide (row_name r = app_name)) as [E|E]; simpl.
    + by rewrite !decide_False by congruence.
    + destruct (decide (row_name r = other)); [done|].
      destruct (list_find _ (upsert _ _ _ _ _)) as [[??]|];
        destruct (list_find _ df) as [[??]|]; simpl in *; congruence.
Qed.

(** ** The semantics of the program constructs *)

Section Run.
Context (env : Env).

Lemma run_bind {A B} (p : Prog A) (f : A → Prog B) (w : World) :
  run env (p ≫= f) w =
  match run env p w with
  | (Ok a, w') => run env (f a) w'
  | (Err e, w') => (Err e, w')
  end.
Proof.
  revert w. induction p as [a|e|R op k IH]; intros w; [done..|].
  change (run env (Vis op k ≫= f) w)
    with (let '(r, w') := exec env op w in run env (k r ≫= f) w').
  simpl. destruct (exec env op w) as [r w']. apply IH.
Qed.

Lemma run_try_except {A} (p : Prog A) handles (h : exn → Prog A) (w : World) :
  run env (try_except p handles h) w =
  match run env p w with
  | (Ok a, w') => (Ok a, w')
  | (Err e, w') => if handles (exn_class_of e) then run env (h e) w' else (Err e, w')
  end.
Proof.
  revert w. induction p as [a|e|R op k IH]; intros w; simpl.
  - done.
  - by destruct (handles _).
  - destruct (exec env op w) as [r w']. apply IH.
Qed.

Lemma run_call {R} (op : Op R) (w : World) :
  run env (call op) w =
  match exec env op w with
  | (inr x, w') => (Ok x, w')
  | (inl e, w') => (Err e, w')
  end.
Proof. simpl. by destruct (exec env op w) as [[e|x] w']. Qed.

Lemma run_print (m : console_msg) (w : World) :
  run env (print m) w = (Ok tt, with_console (console w ++ [m]) w).
Proof. done. Qed.

Lemma run_ret {A} (a : A) (w : World) : run env (Ret a) w = (Ok a, w).
Proof. done. Qed.

Lemma run_for_each_cons {X} (x : X) (l : list X) (body : X → Prog unit) (w : World) :
  run env (for_each (x :: l) body) w =
  match run env (body x) w with
  | (Ok _, w') => run env (for_each l body) w'
  | (Err e, w') => (Err e, w')
  end.
Proof. simpl. apply (run_bind (body x)). Qed.

(** *** Invariants of the world *)

Section Invariant.
Context (P : ∀ R, Op R → Prop) (I : World → Prop).
Hypothesis exec_keeps :
  ∀ R (op : Op R) w, P R op → I w → I (exec env op w).2.

Lemma run_keeps {A} (p : Prog A) (w : World) :
  all_ops P p → I w → I (run env p w).2.
Proof.
  revert w. induction p as [a|e|R op k IH]; intros w Hp Hw; [done..|].
  simpl in *. destruct Hp as [Hop Hk].
  pose proof (exec_keeps _ op w Hop Hw) as Hw'.
  destruct (exec env op w) as [r w']. apply IH; [apply Hk|exact Hw'].
Qed.

Lemma step_keeps {A} (p : Prog A) (w : World) :
  all_ops P p → I w → all_ops P (step env p w).1 ∧ I (step env p w).2.
Proof.
  destruct p as [a|e|R op k]; intros Hp Hw; [done..|].
  simpl in *. destruct Hp as [Hop Hk].
  pose proof (exec_keeps _ op w Hop Hw) as Hw'.
  destruct (exec env op w) as [r w']. split; [apply Hk|exact Hw'].
Qed.

Lemma drain_keeps (ts : list task) (w : World) :
  Forall (λ t, all_ops P (code t)) ts → I w → I (drain env ts w).2.
Proof.
  revert w. induction ts as [|t ts IH]; intros w Hts Hw; [done|].
  apply Forall_cons in Hts as [Ht Hts]. simpl.
  pose proof (run_keeps (code t) w Ht Hw) as Hr.
  destruct (run env (code t) w) as [r w'].
  specialize (IH w' Hts Hr).
  by destruct (drain env ts w') as [rs w''].
Qed.

Lemma pool_step_keeps (i : nat) (ts : list task) (w : World) :
  Forall (λ t, all_ops P (code t)) ts → I w →
  Forall (λ t, all_ops P (code t)) (pool_step env i (ts, w)).1
  ∧ I (pool_step env i (ts, w)).2.
Proof.
  intros Hts Hw. unfold pool_step.
  destruct (can_move ts i); [|done].
  destruct (ts !! i) as [t|] eqn:Hi; [|done].
  assert (all_ops P (code t)) as Ht.
  { eapply Forall_forall in Hts; [done|]. by eapply list_elem_of_lookup_2. }
  pose proof (step_keeps (code t) w Ht Hw) as [Hp' Hw'].
  destruct (step env (code t) w) as [p' w']. simpl in *.
  split; [|done]. by apply Forall_insert.
Qed.

Lemma run_pool_keeps (schedule : list nat) (tasks : list (Prog unit)) (w : World) :
  Forall (all_ops P) tasks → I w → I (run_pool env schedule tasks w).2.
Proof.
  intros Hts Hw. unfold run_pool.
  assert (Forall (λ t, all_ops P (code t))
            ((λ p, {| started := false; code := p |}) <$> tasks)) as Hts'.
  { by apply Forall_fmap. }
  revert Hts' Hw. generalize ((λ p, {| started := false; code := p |}) <$> tasks).
  clear Hts. revert w.
  induction schedule as [|i schedule IH]; intros w ts Hts Hw; cbn [foldl].
  - by apply drain_keeps.
  - pose proof (pool_step_keeps i ts w Hts Hw) as [Hts' Hw'].
    destruct (pool_step env i (ts, w)) as [ts' w']. by apply IH.
Qed.

End Invariant.
End Run.

(** *** Which actions a program is made of *)

Section AllOps.
Context (P : ∀ R, Op R → Prop).

Lemma all_ops_bind {A B} (p : Prog A) (f : A → Prog B) :
  all_ops P p → (∀ a, all_ops P (f a)) → all_ops P (p ≫= f).
Proof.
  intros Hp Hf. induction p as [a|e|R op k IH]; [apply Hf|done|].
  destruct Hp as [Hop Hk]. split; [done|]. intros r. by apply IH.
Qed.

Lemma all_ops_try_except {A} (p : Prog A) handles (h : exn → Prog A) :
  all_ops P p → (∀ e, all_ops P (h e)) → all_ops P (try_except p handles h).
Proof.
  intros Hp Hh. induction p as [a|e|R op k IH]; simpl.
  - done.
  - destruct (handles _); [apply Hh|done].
  - destruct Hp as [Hop Hk]. split; [done|]. intros r. by apply IH.
Qed.

Lemma all_ops_call {R} (op : Op R) : P R op → all_ops P (call op).
Proof. intros Hop. split; [done|]. by intros [e|x]. Qed.

Lemma all_ops_for_each {X} (l : list X) (body : X → Prog unit) :
  (∀ x, all_ops P (body x)) → all_ops P (for_each l body).
Proof.
  intros Hb. induction l as [|x l IH]; [done|].
  apply (all_ops_bind (body x)); [apply Hb|done].
Qed.

Lemma all_ops_raise_if (o : option exn) : all_ops P (raise_if o).
Proof. by destruct o. Qed.

Lemma all_ops_value_of {R} (r : exn + R) : all_ops P (value_of r).
Proof. by destruct r. Qed.

Lemma all_ops_first {X} (l : list X) : all_ops P (first l).
Proof. by destruct l. Qed.

End AllOps.

(** ** The actions of each function *)

Ltac ops_step :=
  first
    [ apply all_ops_call
    | apply all_ops_raise_if
    | apply all_ops_value_of
    | apply all_ops_first
    | apply all_ops_for_each; intros
    | apply all_ops_try_except; [|intros]
    | apply all_ops_bind; [|intros] ].

Ltac ops := repeat ops_step; try done.

Section Footprints.
Context (P : ∀ R, Op R → Prop).
Hypothesis P_print : ∀ m, not_installing _ (Print m) → P _ (Print m).

Ltac prints := try (apply P_print; done).

Lemma download_app_ops app_name url download_dir show_progress :
  P _ (RequestsGet url) →
  P _ (OpenWb (Path.join download_dir (app_name ++ u ".apk"))) →
  (∀ data, P _ (FileWrite (Path.join download_dir (app_name ++ u ".apk")) data)) →
  all_ops P (download_app app_name url download_dir show_progress).
Proof.
  intros Hget Hopen Hwrite. unfold download_app, download_app_try, print.
  ops; prints. destruct show_progress; ops; prints.
Qed.

Lemma install_app_ops device_id apk_path show_progress :
  P _ (Print (MsgInstalling apk_path)) →
  (∀ device, P _ (SubprocessRun (install_command device apk_path) true)) →
  all_ops P (install_app device_id apk_path show_progress).
Proof.
  intros Hmsg Hrun. unfold install_app, install_app_try, print.
  ops; prints. destruct device_id; ops.
Qed.

Lemma update_excel_status_ops excel_file app_name url ds is' :
  P _ (ReadExcel excel_file) →
  (∀ df, P _ (ToExcel excel_file df)) →
  all_ops P (update_excel_status excel_file app_name url ds is').
Proof. intros Hread Hwrite. unfold update_excel_status, print. ops; prints. Qed.

Lemma incr_ops v :
  P _ (Load v) → (∀ z, P _ (Store v z)) → all_ops P (incr v).
Proof. intros Hload Hstore. unfold incr. ops. Qed.

End Footprints.

(** ** download_app *)

Lemma download_app_try_result env app_name url download_dir show_progress w r w' :
  run env (download_app_try app_name url download_dir show_progress) w = (Ok r, w') →
  r = (Some (Path.join download_dir (app_name ++ u ".apk")), u "下载成功").
Proof.
  unfold download_app_try. rewrite run_bind, run_print.
  rewrite run_bind. destruct (run env (call _) _) as [[response|?] w1]; [|done].
  rewrite run_bind. destruct (run env (raise_if _) _) as [[?|?] w2]; [|done].
  rewrite run_bind. destruct (run env (value_of _) _) as [[?|?] w3]; [|done].
  rewrite run_bind. destruct (run env (call _) _) as [[?|?] w4]; [|done].
  rewrite run_bind. destruct (run env (if show_progress then _ else _) _) as [[?|?] w5]; [|done].
  rewrite run_bind. destruct (run env (raise_if _) _) as [[?|?] w6]; [|done].
  rewrite run_bind, run_print. simpl. congruence.
Qed.

(** C4. [download_app] always returns a pair and never raises: when the
    try block raises, the pair is [None] with the failure message that
    ends with the text of the exception; when the try block completes, the
    pair is the path of the package file with the success message. *)
Theorem download_app_never_raises env app_name url download_dir show_progress w :
  ∃ w',
    run env (download_app app_name url download_dir show_progress) w =
    (Ok match (run env (download_app_try app_name url download_dir show_progress) w).1 with
        | Ok _ => (Some (Path.join download_dir (app_name ++ u ".apk")), u "下载成功")
        | Err e => (None, u "下载失败: " ++ exn_str e)
        end, w').
Proof.
  unfold download_app. rewrite run_try_except.
  destruct (run env (download_app_try _ _ _ _) w) as [[r|e] w1] eqn:E; simpl.
  - apply download_app_try_result in E as ->. eauto.
  - eauto.
Qed.

(** ** install_app *)

(** C6 (amended). For every device id and package path, [install_app]
    returns a status string when the bridge tool runs to an exit code: a
    zero exit yields the success status, a non-zero exit yields a failure
    status containing the tool's error text (the text of the
    CalledProcessError that [check=True] raises, also when the invocation
    raises it itself); any other failure of the invocation is not caught
    by [install_app] and leaves it as an exception. *)
Theorem install_app_status env device apk_path show_progress w :
  (run env (install_app (Some device) apk_path show_progress) w).1 =
  match env_run env (clock w) (install_command device apk_path) with
  | inr result =>
    if (returncode result =? 0)%Z then Ok (u "安装成功")
    else Ok (u "安装失败: "
             ++ env_cpe_str env (install_command device apk_path) (returncode result))
  | inl e =>
    if bool_decide (exn_class_of e = CalledProcessError)
    then Ok (u "安装失败: " ++ exn_str e)
    else Err e
  end.
Proof.
  unfold install_app, install_app_try. rewrite run_try_except.
  rewrite run_bind, run_print, run_bind, run_bind, run_call. simpl.
  destruct (env_run env (clock w) _) as [e|result]; simpl.
  - unfold only. by destruct (bool_decide _).
  - by destruct (returncode result =? 0)%Z.
Qed.

(** ** check_device_online *)

(** C3. When the device listing produces [text], the function returns a
    device id exactly when one line of it ends with "device"; the id is
    then the first whitespace-delimited token of that line. With no such
    line, or with more than one, it returns [None]. *)
Theorem check_device_online_one_device env w result text :
  env_run env (clock w) [u "adb"; u "devices"] = inr result →
  stdout_decode result = inr text →
  let ready := filter (λ line : str, endswith line (u "device")) (splitlines text) in
  ∃ o w',
    run env check_device_online w = (Ok o, w')
    ∧ (is_Some o ↔ length ready = 1%nat)
    ∧ (∀ line, ready = [line] → ∃ tok rest, split line = tok :: rest ∧ o = Some tok)
    ∧ (length ready = 0%nat ∨ (1 < length ready)%nat → o = None).
Proof.
  intros Hrun Hdec ready.
  unfold check_device_online. rewrite run_try_except.
  rewrite run_bind, run_print, run_bind, run_call. simpl. rewrite Hrun. simpl.
  rewrite run_bind, Hdec. simpl. fold ready.
  destruct ready as [|line [|line' rest]] eqn:Hready; simpl.
  - eexists _, _. split; [done|]. split; [|split].
    + split; [by intros [? [=]]|done].
    + done.
    + done.
  - assert (endswith line (u "device")) as Hline.
    { assert (line ∈ ready) as Hin by (rewrite Hready; apply elem_of_cons; by left).
      unfold ready in Hin. by apply list_elem_of_filter in Hin as [? _]. }
    destruct (split_device_line line Hline) as (tok & rest & Hsplit).
    rewrite Hsplit. simpl.
    eexists _, _. split; [done|]. split; [|split].
    + split; [done|by eexists].
    + intros ? [= <-]. rewrite Hsplit. eauto.
    + intros [?|?]; lia.
  - eexists _, _. split; [done|]. split; [|split].
    + split; [by intros [? [=]]|done].
    + done.
    + done.
Qed.

(** ** update_excel_status *)


(** X6. [update_excel_status] has no handler of its own: when the ledger
    file is missing or is not a workbook it raises, and nothing is written
    or printed. *)
Lemma run_update_excel_status_unreadable env excel_file app_name url ds is' w :
  (∀ df, files w !! excel_file ≠ Some (Workbook df)) →
  ∃ e, run env (update_excel_status excel_file app_name url ds is') w = (Err e, w).
Proof.
  intros Hfile. unfold update_excel_status.
  rewrite run_bind, run_call. simpl.
  destruct (files w !! excel_file) as [[b|df]|] eqn:E; [eauto| |eauto].
  by destruct (Hfile df).
Qed.

Lemma upsert_in_place_or_append (df : DataFrame) app_name url ds is' :
  (∃ i r, name_index df app_name = Some i
          ∧ df !! i = Some r ∧ row_name r = app_name
          ∧ upsert df app_name url ds is' = <[i := set_status ds is' r]> df)
  ∨ ((app_name ∉ (row_name <$> df))
     ∧ upsert df app_name url ds is' = df ++ [new_row app_name url ds is']).
Proof.
  unfold upsert. destruct (name_index df app_name) as [i|] eqn:E.
  - left. destruct (name_index_Some _ _ _ E) as (r & Hi & Hr).
    exists i, r. split; [done|]. split; [done|]. split; [done|].
    apply list_eq. intros j. destruct (decide (i = j)) as [<-|Hne].
    + rewrite list_lookup_alter_eq, Hi. simpl.
      rewrite list_lookup_insert_eq; [done|]. by eapply lookup_lt_Some.
    + rewrite list_lookup_alter_ne, list_lookup_insert_ne; done.
  - right. split; [|done]. rewrite <- name_index_is_Some, E. by intros [? [=]].
Qed.

Lemma upsert_keeps_unique (df : DataFrame) app_name url ds is' other :
  (length (rows_named other df) ≤ 1)%nat →
  (length (rows_named other (upsert df app_name url ds is')) ≤ 1)%nat.
Proof.
  intros H. destruct (decide (other = app_name)) as [->|Hne].
  - rewrite rows_named_upsert. destruct (rows_named app_name df); simpl in *; lia.
  - by rewrite rows_named_upsert_other.
Qed.

(** ** What the classes of actions leave alone *)

Section Keeps.
Context (env : Env).

Lemma exec_leaves_file path R (op : Op R) w :
  leaves_file path R op → files (exec env op w).2 !! path = files w !! path.
Proof.
  destruct op; simpl; try done.
  - intros Hne. destruct (env_open _ _ _); [done|]. simpl. by apply lookup_insert_ne.
  - intros Hne. destruct (env_write _ _ _ _); [done|]. simpl. by apply lookup_insert_ne.
  - intros Hne. destruct (env_remove _ _ _); [done|].
    destruct (files w !! path0); [|done]. simpl. by apply lookup_delete_ne.
  - intros Hne. destruct (files w !! path0) as [[]|]; done.
  - intros Hne. by apply lookup_insert_ne.
Qed.

Lemma exec_leaves_files R (op : Op R) w :
  leaves_files R op → files (exec env op w).2 = files w.
Proof.
  destruct op; simpl; try done.
  destruct (files w !! path) as [[]|]; done.
Qed.

Lemma exec_no_store R (op : Op R) w :
  no_store R op → cells (exec env op w).2 = cells w.
Proof.
  destruct op; simpl; try done.
  - by destruct (env_open _ _ _).
  - by destruct (env_write _ _ _ _).
  - destruct (env_remove _ _ _); [done|]. by destruct (files w !! path).
  - by destruct (files w !! path) as [[]|].
Qed.

Lemma exec_no_spawn R (op : Op R) w :
  no_spawn R op → spawned (exec env op w).2 = spawned w.
Proof.
  destruct op; simpl; try done.
  - by destruct (env_open _ _ _).
  - by destruct (env_write _ _ _ _).
  - destruct (env_remove _ _ _); [done|]. by destruct (files w !! path).
  - by destruct (files w !! path) as [[]|].
Qed.

Lemma exec_not_installing R (op : Op R) w :
  not_installing R op → install_attempts (exec env op w).2 = install_attempts w.
Proof.
  unfold install_attempts. destruct op; simpl; try done.
  - intros Hm. rewrite omap_app. simpl. destruct m; try done; by rewrite app_nil_r.
  - by destruct (env_open _ _ _).
  - by destruct (env_write _ _ _ _).
  - destruct (env_remove _ _ _); [done|]. by destruct (files w !! path).
  - by destruct (files w !! path) as [[]|].
Qed.

Lemma run_leaves_file path {A} (p : Prog A) w :
  all_ops (leaves_file path) p → files (run env p w).2 !! path = files w !! path.
Proof.
  intros Hp.
  apply (run_keeps env (leaves_file path) (λ w', files w' !! path = files w !! path));
    [|done..].
  intros R op w' Hop <-. by apply exec_leaves_file.
Qed.

Lemma run_leaves_files {A} (p : Prog A) w :
  all_ops leaves_files p → files (run env p w).2 = files w.
Proof.
  intros Hp.
  apply (run_keeps env leaves_files (λ w', files w' = files w)); [|done..].
  intros R op w' Hop <-. by apply exec_leaves_files.
Qed.

Lemma run_no_store {A} (p : Prog A) w :
  all_ops no_store p → cells (run env p w).2 = cells w.
Proof.
  intros Hp.
  apply (run_keeps env no_store (λ w', cells w' = cells w)); [|done..].
  intros R op w' Hop <-. by apply exec_no_store.
Qed.

Lemma run_no_spawn {A} (p : Prog A) w :
  all_ops no_spawn p → spawned (run env p w).2 = spawned w.
Proof.
  intros Hp.
  apply (run_keeps env no_spawn (λ w', spawned w' = spawned w)); [|done..].
  intros R op w' Hop <-. by apply exec_no_spawn.
Qed.


End Keeps.

(** ** download_app and install_app as steps of a task *)

Lemma download_app_total env app_name url download_dir show_progress w :
  ∃ r w',
    run env (download_app app_name url download_dir show_progress) w = (Ok r, w')
    ∧ (r = (Some (Path.join download_dir (app_name ++ u ".apk")), u "下载成功")
       ∨ ∃ e, r = (None, u "下载失败: " ++ exn_str e)).
Proof.
  unfold download_app. rewrite run_try_except.
  destruct (run env (download_app_try _ _ _ _) w) as [[r|e] w1] eqn:E; simpl.
  - apply download_app_try_result in E as ->. eauto.
  - eauto 6.
Qed.



(** ** The task of download_and_install_apps *)

Lemma run_incr env v w :
  run env (incr v) w =
  (Ok tt, with_cells (set_cell v (get_cell v (cells w) + 1)%Z (cells w)) w).
Proof. reflexivity. Qed.


Lemma download_app_no_spawn app_name url download_dir show_progress :
  all_ops no_spawn (download_app app_name url download_dir show_progress).
Proof. by apply download_app_ops. Qed.

Lemma download_app_no_store app_name url download_dir show_progress :
  all_ops no_store (download_app app_name url download_dir show_progress).
Proof. by apply download_app_ops. Qed.

Lemma download_app_leaves_excel app_name url download_dir show_progress :
  all_ops (leaves_file (Path.join download_dir (u "download.xlsx")))
          (download_app app_name url download_dir show_progress).
Proof.
  apply download_app_ops; try done; intros; apply apk_path_not_excel.
Qed.

Lemma install_app_spawned env device apk_path show_progress w :
  spawned (run env (install_app (Some device) apk_path show_progress) w).2 =
  spawned w ++ [install_command device apk_path].
Proof.
  unfold install_app, install_app_try.
  rewrite run_try_except, run_bind, run_print, run_bind, run_bind, run_call.
  simpl. destruct (env_run _ _ _) as [e|result]; simpl.
  - by destruct (only _ _).
  - by destruct (returncode result =? 0)%Z.
Qed.



(** ** The task of install_local_apks *)

Lemma install_app_leaves_files device_id apk_path show_progress :
  all_ops leaves_files (install_app device_id apk_path show_progress).
Proof. by apply install_app_ops. Qed.

(** ** Counting *)

Lemma install_app_no_store device_id apk_path show_progress :
  all_ops no_store (install_app device_id apk_path show_progress).
Proof. by apply install_app_ops. Qed.

Lemma update_excel_status_no_store excel_file app_name url ds is' :
  all_ops no_store (update_excel_status excel_file app_name url ds is').
Proof. by apply update_excel_status_ops. Qed.

(** The task of [download_apps] counts its download once. *)
Lemma download_apps_process_app_counts env download_dir excel_file row w :
  let w' := (run env (download_apps_process_app download_dir excel_file row) w).2 in
  downloads_counted (cells w') = (downloads_counted (cells w) + 1)%Z.
Proof.
  cbv zeta. unfold download_apps_process_app.
  destruct (download_app_total env (row_name row) (row_url row) download_dir true w)
    as ([apk_path download_status] & w1 & Hdl & _).
  pose proof (run_no_store env _ w (download_app_no_store
    (row_name row) (row_url row) download_dir true)) as Hc1.
  rewrite Hdl in Hc1. simpl in Hc1.
  rewrite run_bind, Hdl, run_bind.
  destruct (contains _ _); rewrite run_incr;
    rewrite run_no_store by apply update_excel_status_no_store;
    simpl; rewrite Hc1; unfold downloads_counted; destruct (cells w); simpl; lia.
Qed.

(** The task of [download_and_install_apps] counts its download once and
    every install it counts in the total it also counts as a success or
    as a failure. *)
Lemma process_app_counts env device_id download_dir excel_file row w :
  let w' := (run env (process_app device_id download_dir excel_file row) w).2 in
  downloads_counted (cells w') = (downloads_counted (cells w) + 1)%Z
  ∧ installs_balance (cells w') = installs_balance (cells w).
Proof.
  cbv zeta. unfold process_app.
  destruct (download_app_total env (row_name row) (row_url row) download_dir true w)
    as ([apk_path download_status] & w1 & Hdl & _).
  pose proof (run_no_store env _ w (download_app_no_store
    (row_name row) (row_url row) download_dir true)) as Hc1.
  rewrite Hdl in Hc1. simpl in Hc1.
  rewrite run_bind, Hdl, run_bind.
  set (counted := if contains (u "成功") download_status
                  then incr download_success else incr download_failure).
  assert (∃ c, run env counted w1 = (Ok tt, with_cells c w1)
               ∧ downloads_counted c = (downloads_counted (cells w) + 1)%Z
               ∧ installs_balance c = installs_balance (cells w)) as (c & -> & Hd & Hi).
  { unfold counted. destruct (contains _ _); rewrite run_incr; eexists; (split; [done|]);
      rewrite Hc1; unfold downloads_counted, installs_balance;
      destruct (cells w); simpl; lia. }
  rewrite run_bind. destruct (truthy apk_path).
  - rewrite run_bind.
    pose proof (run_no_store env _ (with_cells c w1)
      (install_app_no_store device_id (default [] apk_path) true)) as Hc2.
    destruct (run env (install_app _ _ _) _) as [[install_status|e] w2];
      simpl in Hc2; [|simpl; by rewrite Hc2].
    rewrite run_bind, run_incr, run_bind.
    set (c3 := set_cell total_installs _ _).
    assert (∃ c4, ∀ w0, cells w0 = c3 →
              run env (if contains (u "成功") install_status
                       then incr install_success else incr install_failure) w0
              = (Ok tt, with_cells c4 w0)
              ∧ downloads_counted c4 = (downloads_counted (cells w) + 1)%Z
              ∧ installs_balance c4 = installs_balance (cells w)) as [c4 Hc4].
    { destruct (contains (u "成功") install_status); eexists; intros w0 Hw0;
        rewrite run_incr, Hw0;
        (split; [done|]); unfold c3; rewrite Hc2;
        unfold downloads_counted, installs_balance in *;
        destruct c; simpl in *; lia. }
    match goal with |- context [run env (if _ then _ else _) ?w0] =>
      destruct (Hc4 w0 eq_refl) as (-> & Hd4 & Hi4)
    end.
    rewrite run_ret, run_no_store by apply update_excel_status_no_store.
    done.
  - rewrite run_ret, run_no_store by apply update_excel_status_no_store.
    done.
Qed.

(** ** The batch functions, run one task after the other *)

Lemma top_bind_eq {A B} (m : M A) (f : A → M B) (w : World) :
  (m ≫= f) w =
  match m w with
  | (Ok a, w') => f a w'
  | (Err e, w') => (Err e, w')
  end.
Proof. reflexivity. Qed.

Section Sequential.
Context (env : Env).

Lemma download_apps_loop_counts download_dir excel_file (rows : DataFrame) w w' :
  run env (for_each (download_apps_process_app download_dir excel_file <$> rows) id) w
    = (Ok tt, w') →
  downloads_counted (cells w') =
  (downloads_counted (cells w) + Z.of_nat (length rows))%Z.
Proof.
  revert w. induction rows as [|row rows IH]; intros w.
  - intros [= <-]. simpl. lia.
  - rewrite fmap_cons, run_for_each_cons. unfold id at 1.
    pose proof (download_apps_process_app_counts env download_dir excel_file row w) as Hc.
    destruct (run env (download_apps_process_app _ _ _) w) as [[[]|e] w1]; [|done].
    intros Hrest. apply IH in Hrest. simpl in Hc.
    rewrite Hrest, Hc, length_cons. lia.
Qed.

Lemma process_app_loop_counts device_id download_dir excel_file (rows : DataFrame) w w' :
  run env (for_each (process_app device_id download_dir excel_file <$> rows) id) w
    = (Ok tt, w') →
  downloads_counted (cells w') =
    (downloads_counted (cells w) + Z.of_nat (length rows))%Z
  ∧ installs_balance (cells w') = installs_balance (cells w).
Proof.
  revert w. induction rows as [|row rows IH]; intros w.
  - intros [= <-]. simpl. split; [lia|done].
  - rewrite fmap_cons, run_for_each_cons. unfold id at 1.
    pose proof (process_app_counts env device_id download_dir excel_file row w) as [Hd Hi].
    destruct (run env (process_app _ _ _ _) w) as [[[]|e] w1]; [|done].
    intros Hrest. apply IH in Hrest as [Hd' Hi']. simpl in Hd, Hi.
    rewrite Hd', Hi', Hd, Hi, length_cons. split; [lia|done].
Qed.

(** X8. Without the pool, [download_apps] reports counts that add up: the
    summary it prints last has success + failure = total, and the total is
    the number of ledger rows. *)
Lemma download_apps_sequential_counts device_id download_dir schedule w df w' :
  files w !! Path.join download_dir (u "download.xlsx") = Some (Workbook df) →
  download_apps env device_id download_dir false schedule w = (Ok tt, w') →
  ∃ success failure,
    last (console w') =
      Some (MsgDownloadSummary success failure (Z.of_nat (length df)))
    ∧ (success + failure)%Z = Z.of_nat (length df).
Proof.
  intros Hfile. unfold download_apps. cbv zeta.
  rewrite top_bind_eq, run_call. simpl exec. rewrite Hfile.
  rewrite bool_decide_true by eauto. cbn [negb].
  rewrite top_bind_eq, run_call. simpl exec. rewrite Hfile.
  rewrite top_bind_eq. simpl run at 1. cbv iota.
  rewrite top_bind_eq. unfold run_tasks.
  match goal with |- context [run env (for_each _ id) ?w0] =>
    destruct (run env (for_each _ id) w0) as [[[]|e] w1] eqn:Hloop; [|done];
    apply download_apps_loop_counts in Hloop
  end.
  simpl in Hloop. unfold downloads_counted in Hloop.
  simpl. intros [= <-]. simpl. rewrite last_snoc.
  eexists _, _. split; [done|]. simpl in Hloop. lia.
Qed.

(** X10. Without the pool, [download_and_install_apps] reports counts that add
    up for the downloads and for the installs. *)
Lemma download_and_install_apps_sequential_counts
    device_id download_dir schedule w df w' :
  files w !! Path.join download_dir (u "download.xlsx") = Some (Workbook df) →
  download_and_install_apps env device_id download_dir false schedule w = (Ok tt, w') →
  ∃ msgs d_success d_failure i_success i_failure i_total,
    console w' =
      msgs ++ [MsgDownloadSummary d_success d_failure (Z.of_nat (length df));
               MsgInstallSummary i_success i_failure i_total]
    ∧ (d_success + d_failure)%Z = Z.of_nat (length df)
    ∧ (i_success + i_failure)%Z = i_total.
Proof.
  intros Hfile. unfold download_and_install_apps. cbv zeta.
  rewrite top_bind_eq, run_call. simpl exec. rewrite Hfile.
  rewrite bool_decide_true by eauto. cbn [negb].
  rewrite top_bind_eq, run_call. simpl exec. rewrite Hfile.
  rewrite top_bind_eq. simpl run at 1. cbv iota.
  rewrite top_bind_eq. unfold run_tasks.
  match goal with |- context [run env (for_each _ id) ?w0] =>
    destruct (run env (for_each _ id) w0) as [[[]|e] w1] eqn:Hloop; [|done];
    apply process_app_loop_counts in Hloop as [Hd Hi]
  end.
  simpl in Hd, Hi. unfold downloads_counted in Hd. unfold installs_balance in Hi.
  simpl. intros [= <-]. simpl.
  eexists _, _, _, _, _, _. split; [by rewrite <- app_assoc|].
  simpl in Hd, Hi. lia.
Qed.

End Sequential.

(** ** download_apps and the device *)

Section TopKeeps.
Context (env : Env) (P : ∀ R, Op R → Prop) (I : World → Prop).
Hypothesis exec_keeps :
  ∀ R (op : Op R) w, P R op → I w → I (exec env op w).2.

Lemma top_bind_keeps {A B} (m : M A) (f : A → M B) (w : World) :
  I (m w).2 → (∀ a w1, I w1 → I (f a w1).2) → I ((m ≫= f) w).2.
Proof.
  intros Hm Hf. rewrite top_bind_eq.
  destruct (m w) as [[a|e] w1]; [by apply Hf|done].
Qed.

Lemma all_ops_tasks (tasks : list (Prog unit)) :
  Forall (all_ops P) tasks → all_ops P (for_each tasks id).
Proof.
  induction 1 as [|t tasks Ht _ IH]; [done|].
  by apply (all_ops_bind P t).
Qed.

Lemma run_tasks_keeps parallel schedule (tasks : list (Prog unit)) (w : World) :
  Forall (all_ops P) tasks → I w → I (run_tasks env parallel schedule tasks w).2.
Proof.
  intros Hts Hw. unfold run_tasks. destruct parallel.
  - pose proof (run_pool_keeps env P I exec_keeps schedule tasks w Hts Hw) as H.
    by destruct (run_pool env schedule tasks w).
  - apply (run_keeps env P I exec_keeps); [by apply all_ops_tasks|done].
Qed.

End TopKeeps.

Lemma download_apps_process_app_quiet download_dir excel_file row :
  all_ops quiet (download_apps_process_app download_dir excel_file row).
Proof.
  unfold download_apps_process_app.
  apply all_ops_bind; [by apply download_app_ops|]. intros [apk_path download_status].
  apply all_ops_bind; [destruct (contains _ _); by apply incr_ops|]. intros _.
  by apply update_excel_status_ops.
Qed.

(** C9. [download_apps] does the same whatever the device argument is,
    [None] included: the result and the final state of the world (files,
    ledger, console, counters) are equal for any two device ids, no
    process is started (the device listing and the installer are both
    processes of the bridge tool) and [install_app] is never called. This
    holds with the pool, for every schedule, and without it. *)
Theorem download_apps_ignores_device
    env device1 device2 download_dir parallel schedule w :
  download_apps env device1 download_dir parallel schedule w
  = download_apps env device2 download_dir parallel schedule w
  ∧ spawned (download_apps env device1 download_dir parallel schedule w).2 = spawned w
  ∧ install_attempts (download_apps env device1 download_dir parallel schedule w).2
    = install_attempts w.
Proof.
  split; [reflexivity|].
  assert (∀ R (op : Op R) w0, quiet R op →
            spawned w0 = spawned w ∧ install_attempts w0 = install_attempts w →
            spawned (exec env op w0).2 = spawned w
            ∧ install_attempts (exec env op w0).2 = install_attempts w) as Hexec.
  { intros R op w0 [Hs Hi] [<- <-].
    split; [by apply exec_no_spawn|by apply exec_not_installing]. }
  set (I := λ w0, spawned w0 = spawned w ∧ install_attempts w0 = install_attempts w).
  assert (∀ A (p : Prog A) w0, all_ops quiet p → I w0 → I (run env p w0).2) as Hrun.
  { intros A p w0. by apply (run_keeps env quiet I). }
  cut (I (download_apps env device1 download_dir parallel schedule w).2); [done|].
  unfold download_apps. cbv zeta.
  apply top_bind_keeps; [apply Hrun; [by apply all_ops_call|done]|].
  intros found w1 Hw1. destruct (negb found).
  { apply Hrun; [by apply all_ops_call|done]. }
  apply top_bind_keeps; [apply Hrun; [by apply all_ops_call|done]|].
  intros df w2 Hw2.
  apply top_bind_keeps; [apply Hrun; [ops|done]|].
  intros _ w3 Hw3.
  apply top_bind_keeps.
  - apply (run_tasks_keeps env quiet I Hexec); [|done].
    apply Forall_fmap, Forall_forall. intros row _.
    apply download_apps_process_app_quiet.
  - intros _ w4 Hw4. apply Hrun; [unfold print; ops|done].
Qed.

(** ** delete_all_apks *)

(** A listed name is the name of a file of the directory. *)
Lemma entry_of_join (dir path name : str) :
  entry_of dir path = Some name → Path.join dir name = path.
Proof.
  unfold entry_of, Path.join.
  set (prefix := if bool_decide (dir = []) || endswith dir [Path.sep]
                 then dir else dir ++ [Path.sep]).
  destruct (startswith path prefix) eqn:Hpre; [|done].
  destruct (bool_decide (drop (length prefix) path = [])) eqn:Hne; [done|].
  destruct (bool_decide (Path.sep ∈ drop (length prefix) path)) eqn:Hsep; [done|].
  simpl. intros [= <-].
  apply bool_decide_eq_false in Hsep, Hne.
  apply Is_true_true, startswith_spec in Hpre as [r ->].
  rewrite drop_app_length in *.
  destruct (startswith r [Path.sep]) eqn:Hr.
  { apply Is_true_true, startswith_spec in Hr as [r' ->].
    destruct Hsep. apply elem_of_cons. by left. }
  unfold prefix. destruct (_ || _); [done|]. by rewrite <- app_assoc.
Qed.

Lemma listdir_exists (f : gmap (list N) FileContent) (dir name : str) :
  name ∈ listdir f dir → is_Some (f !! Path.join dir name).
Proof.
  unfold listdir. intros ([path content] & Hin & Hentry)%list_elem_of_omap.
  simpl in Hentry. apply entry_of_join in Hentry as ->.
  apply elem_of_map_to_list in Hin. eauto.
Qed.

Section Delete.
Context (env : Env) (current_dir : str).

Lemma remove_apk_spec (apk : str) (w : World) :
  ∃ w', run env (remove_apk current_dir apk) w = (Ok tt, w')
    ∧ clock w' = S (clock w)
    ∧ (files w' = files w ∨ files w' = delete (Path.join current_dir apk) (files w))
    ∧ (env_remove env (clock w) (Path.join current_dir apk) = None →
       files w' !! Path.join current_dir apk = None).
Proof.
  unfold remove_apk. rewrite run_try_except, run_bind, run_call. simpl exec.
  destruct (env_remove env (clock w) _) as [e|] eqn:Hrm.
  - simpl. eexists. split; [done|]. split; [done|]. split; [by left|done].
  - destruct (files w !! Path.join current_dir apk) eqn:Hfile.
    + simpl. eexists. split; [done|]. split; [done|].
      split; [by right|]. intros _. apply lookup_delete_eq.
    + simpl. eexists. split; [done|]. split; [done|]. split; [by left|done].
Qed.

Lemma remove_loop_spec (apk_files : list str) (w : World) :
  ∃ w', run env (for_each apk_files (remove_apk current_dir)) w = (Ok tt, w')
    ∧ (∀ path,
         files w' !! path = files w !! path
         ∨ (files w' !! path = None
            ∧ ∃ apk, apk ∈ apk_files ∧ path = Path.join current_dir apk))
    ∧ ((∀ c p, env_remove env c p = None) →
       ∀ apk, apk ∈ apk_files → files w' !! Path.join current_dir apk = None).
Proof.
  revert w. induction apk_files as [|apk rest IH]; intros w.
  - exists w. split; [done|]. split; [by left|]. by intros _ ? ?%elem_of_nil.
  - rewrite run_for_each_cons.
    destruct (remove_apk_spec apk w) as (w1 & -> & _ & Hfiles & Hgone).
    destruct (IH w1) as (w' & -> & Hframe & Hall).
    exists w'. split; [done|]. split.
    + intros path. destruct (Hframe path) as [->|[-> (a & Ha & ->)]].
      * destruct Hfiles as [->| ->]; [by left|].
        destruct (decide (Path.join current_dir apk = path)) as [<-|Hne].
        -- right. rewrite lookup_delete_eq. split; [done|].
           exists apk. split; [apply elem_of_cons; by left|done].
        -- left. by apply lookup_delete_ne.
      * right. split; [done|]. exists a. split; [apply elem_of_cons; by right|done].
    + intros Hok a [->|Ha]%elem_of_cons; [|by apply Hall].
      destruct (Hframe (Path.join current_dir apk)) as [->|[-> _]]; [|done].
      by apply Hgone.
Qed.

End Delete.

(** C10. [delete_all_apks] changes the file system only when the answer
    to its prompt, stripped and lower-cased, is "y". For any other answer,
    and when the prompt fails or is not reached, every file is as before.
    When the answer is "y", each file that differs afterwards is a listed
    .apk file of the directory and it is gone, and when no removal fails
    all the listed .apk files are gone. *)
Theorem delete_all_apks_needs_y env current_dir w :
  let w' := (run env (delete_all_apks env current_dir) w).2 in
  let apk_files :=
    filter (λ f : str, endswith f (u ".apk")) (listdir (files w) current_dir) in
  let confirmed :=
    match env_input env (clock w) delete_prompt with
    | inr answer => bool_decide (lower (env_lower env) (strip answer) = u "y")
    | inl _ => false
    end in
  (apk_files = [] ∨ confirmed = false → files w' = files w)
  ∧ (apk_files ≠ [] → confirmed = true →
     (∀ path,
        files w' !! path = files w !! path
        ∨ (files w' !! path = None
           ∧ ∃ apk, apk ∈ apk_files ∧ path = Path.join current_dir apk))
     ∧ ((∀ c p, env_remove env c p = None) →
        ∀ apk, apk ∈ apk_files → files w' !! Path.join current_dir apk = None)).
Proof.
  cbv zeta. unfold delete_all_apks.
  rewrite run_bind, run_call. simpl exec. cbv iota beta.
  set (apk_files := filter _ (listdir (files w) current_dir)).
  destruct (bool_decide (apk_files = [])) eqn:Hempty.
  { apply bool_decide_eq_true in Hempty. split; [done|]. by intros []. }
  apply bool_decide_eq_false in Hempty.
  rewrite run_bind, run_print, run_bind, run_call. simpl exec.
  destruct (env_input env (clock w) delete_prompt) as [e|answer]; cbv iota beta.
  { split; [done|]. by intros _ [=]. }
  destruct (bool_decide (lower (env_lower env) (strip answer) = u "y")) eqn:Hy.
  - split; [by intros [?|[=]]|]. intros _ _.
    destruct (remove_loop_spec env current_dir apk_files
                (tick (with_console (console w ++ [MsgToDelete apk_files]) w)))
      as (w' & Hrun & Hframe & Hall).
    rewrite Hrun. done.
  - split; [|by intros _ [=]]. intros _.
    by destruct (bool_decide (lower (env_lower env) (strip answer) = u "n")).
Qed.

(** ** The theorems at concrete inputs *)

Import Scenario.

Lemma check_device_online_one_device_witness :
  env_run env_ok (clock (world_with [])) [u "adb"; u "devices"]
    = inr {| returncode := 0; stdout_decode := inr one_device_listing |}
  ∧ stdout_decode {| returncode := 0; stdout_decode := inr one_device_listing |}
    = inr one_device_listing
  ∧ ∃ o w', run env_ok check_device_online (world_with []) = (Ok o, w')
            ∧ o = Some (u "emulator-5554").
Proof.
  split; [reflexivity|]. split; [reflexivity|].
  destruct (check_device_online_one_device env_ok (world_with [])
              {| returncode := 0; stdout_decode := inr one_device_listing |}
              one_device_listing eq_refl eq_refl)
    as (o & w' & Hrun & _ & Hone & _).
  exists o, w'. split; [exact Hrun|].
  destruct (Hone (u "emulator-5554" ++ [9] ++ u "device")) as (tok & rest & Hsplit & ->).
  - vm_compute. reflexivity.
  - vm_compute in Hsplit. by injection Hsplit as <- _.
Defined.

(** With the bridge tool missing, the FileNotFoundError of the invocation
    leaves [install_app]. *)
Lemma install_app_lets_exception_escape :
  (run env_no_adb (install_app (Some (u "emulator-5554")) (u "/work/a.apk") true)
     (world_with [])).1
  = Err (Exn FileNotFoundError (u "No such file or directory: 'adb'")).
Proof. vm_compute. reflexivity. Qed.

(** C2 (the code at the failing input). With the pool, [download_apps] on
    a ledger of two rows whose downloads both succeed, under the schedule
    that lets both workers read [download_success] before either writes it
    back, reports 1 success and 0 failures out of 2. *)
Lemma download_apps_parallel_lost_count :
  ∃ w',
    download_apps env_ok None work_dir true lost_update (world_with [app_a; app_b])
      = (Ok tt, w')
    ∧ last (console w') = Some (MsgDownloadSummary 1 0 2).
Proof. eexists. split; vm_compute; reflexivity. Qed.

(** The same happens to the download count of [download_and_install_apps]. *)
Example download_and_install_apps_parallel_lost_count :
  ∃ w',
    download_and_install_apps env_ok (Some (u "emulator-5554")) work_dir true
      lost_update (world_with [app_a; app_b]) = (Ok tt, w')
    ∧ drop 14 (console w') = [MsgDownloadSummary 1 0 2; MsgInstallSummary 2 0 2].
Proof. eexists. split; vm_compute; reflexivity. Qed.

Import Scenario.

(** ** Checks of the model against the interpreter *)

Example splitlines_ex :
  splitlines one_device_listing
  = [u "List of devices attached"; u "emulator-5554" ++ [9] ++ u "device"; []]
  ∧ splitlines (u "a" ++ [13; 10; 13] ++ u "b" ++ [28]) = [u "a"; []; u "b"].
Proof. vm_compute. done. Qed.

Example split_ex :
  split (u "  emulator-5554" ++ [9] ++ u " device ") = [u "emulator-5554"; u "device"].
Proof. vm_compute. reflexivity. Qed.

Example splitext_ex :
  Path.splitext (u "a.b.apk") = (u "a.b", u ".apk")
  ∧ Path.splitext (u ".apk") = (u ".apk", [])
  ∧ Path.splitext (u "..apk") = (u "..apk", [])
  ∧ Path.splitext (u ".apk.apk") = (u ".apk", u ".apk")
  ∧ Path.splitext (u "d.x/abc") = (u "d.x/abc", []).
Proof. vm_compute. done. Qed.

Example join_ex :
  Path.join (u "/tmp") (u "x.apk") = u "/tmp/x.apk"
  ∧ Path.join (u "/tmp/") (u "x.apk") = u "/tmp/x.apk"
  ∧ Path.join (u "/tmp") (u "/x.apk") = u "/x.apk"
  ∧ Path.join [] (u "x") = u "x".
Proof. vm_compute. done. Qed.

Example contains_ex :
  contains (u "成功") (u "下载成功") = true
  ∧ contains (u "成功") (u "下载失败: x") = false.
Proof. vm_compute. done. Qed.

Example strip_lower_ex :
  lower (λ c, [c]) (strip (u "  Y ")) = u "y"
  ∧ lower (λ c, [c]) (strip (u "yes")) = u "yes".
Proof. vm_compute. done. Qed.

(** One ready device and one offline device: the ready one is returned. *)
Example check_device_online_ignores_offline :
  ∀ env w,
    env_run env (clock w) [u "adb"; u "devices"]
    = inr {| returncode := 0;
             stdout_decode :=
               inr (u "List of devices attached" ++ [10]
                    ++ u "emulator-5554" ++ [9] ++ u "device" ++ [10]
                    ++ u "0123456789ABCDEF" ++ [9] ++ u "offline" ++ [10]) |} →
    (run env check_device_online w).1 = Ok (Some (u "emulator-5554")).
Proof.
  intros env w Hrun. unfold check_device_online.
  rewrite run_try_except, run_bind, run_print, run_bind, run_call.
  simpl exec. rewrite Hrun. reflexivity.
Qed.

(** Two ready devices: no device is returned. *)
Example check_device_online_two_devices :
  ∀ env w,
    env_run env (clock w) [u "adb"; u "devices"]
    = inr {| returncode := 0;
             stdout_decode :=
               inr (u "List of devices attached" ++ [10]
                    ++ u "emulator-5554" ++ [9] ++ u "device" ++ [10]
                    ++ u "emulator-5556" ++ [9] ++ u "device" ++ [10]) |} →
    (run env check_device_online w).1 = Ok None.
Proof.
  intros env w Hrun. unfold check_device_online.
  rewrite run_try_except, run_bind, run_print, run_bind, run_call.
  simpl exec. rewrite Hrun. reflexivity.
Qed.

(** With an empty ledger both download workflows report zero counts. *)
Example empty_ledger_counts :
  (last (console (download_apps env_ok None work_dir true [] (world_with [])).2)
   = Some (MsgDownloadSummary 0 0 0))
  ∧ (last (console
        (download_and_install_apps env_ok (Some (u "emulator-5554")) work_dir true []
           (world_with [])).2)
     = Some (MsgInstallSummary 0 0 0)).
Proof. vm_compute. done. Qed.

(** The pool with the tasks run one after the other counts both
    downloads. *)
Example download_apps_serial_schedule :
  last (console (download_apps env_ok None work_dir true []
                   (world_with [app_a; app_b])).2)
  = Some (MsgDownloadSummary 2 0 2).
Proof. vm_compute. reflexivity. Qed.

(** * Further properties *)

(** ** check_device_online *)

Lemma split_from_tokens (cur s tok : str) :
  Forall (λ c, isspace c = false) cur →
  tok ∈ split_from cur s →
  tok ≠ [] ∧ Forall (λ c, isspace c = false) tok.
Proof.
  revert cur. induction s as [|c s IH]; intros cur Hcur; simpl.
  - destruct cur as [|d cur]; [by intros ?%elem_of_nil|].
    intros ->%list_elem_of_singleton. split.
    + intros H%(f_equal length). rewrite length_rev in H. done.
    + by apply Forall_rev.
  - destruct (isspace c) eqn:Hc.
    + destruct cur as [|d cur]; [by apply IH|].
      intros [->|Hin]%elem_of_cons; [|by apply (IH [])].
      split.
      * intros H%(f_equal length). rewrite length_rev in H. done.
      * by apply Forall_rev.
    + apply IH. by constructor.
Qed.

Lemma run_check_device_online env w :
  ∃ w',
    run env check_device_online w
    = (Ok (located (env_run env (clock w) [u "adb"; u "devices"])), w')
    ∧ spawned w' = spawned w ++ [[u "adb"; u "devices"]]
    ∧ files w' = files w
    ∧ requested w' = requested w
    ∧ cells w' = cells w
    ∧ install_attempts w' = install_attempts w.
Proof.
  unfold check_device_online, located.
  rewrite run_try_except, run_bind, run_print, run_bind, run_call. simpl exec.
  destruct (env_run env (clock w) _) as [e|result]; cbv iota beta.
  { rewrite run_bind, run_print. simpl.
    eexists. split; [done|]. repeat split.
    unfold install_attempts. simpl. by rewrite !omap_app, !app_nil_r. }
  rewrite run_bind. destruct (stdout_decode result) as [e|text]; simpl value_of.
  { simpl. eexists. split; [done|]. repeat split.
    unfold install_attempts. simpl. by rewrite !omap_app, !app_nil_r. }
  rewrite run_ret. cbv zeta.
  destruct (filter _ (splitlines text)) as [|line [|line' rest]]; simpl.
  - eexists. split; [done|]. repeat split.
    unfold install_attempts. simpl. by rewrite !omap_app, !app_nil_r.
  - destruct (split line) as [|tok toks]; simpl.
    + eexists. split; [done|]. repeat split.
      unfold install_attempts. simpl. by rewrite !omap_app, !app_nil_r.
    + eexists. split; [done|]. repeat split.
      unfold install_attempts. simpl. by rewrite !omap_app, !app_nil_r.
  - eexists. split; [done|]. repeat split.
    unfold install_attempts. simpl. by rewrite !omap_app, !app_nil_r.
Qed.

(** X1. [check_device_online] never raises: it returns [None] when the
    bridge tool cannot be run or its output cannot be decoded. Whatever
    happens it starts exactly one process, [adb devices], and changes no
    file. *)
Theorem check_device_online_never_raises env w :
  ∃ o w',
    run env check_device_online w = (Ok o, w')
    ∧ spawned w' = spawned w ++ [[u "adb"; u "devices"]]
    ∧ files w' = files w
    ∧ match env_run env (clock w) [u "adb"; u "devices"] with
      | inl _ => o = None
      | inr result =>
        match stdout_decode result with
        | inl _ => o = None
        | inr _ => True
        end
      end.
Proof.
  destruct (run_check_device_online env w) as (w' & Hrun & Hsp & Hfiles & _).
  eexists _, w'. split; [exact Hrun|]. split; [done|]. split; [done|].
  unfold located. destruct (env_run env (clock w) _) as [e|result]; [done|].
  by destruct (stdout_decode result).
Qed.

(** X2. A device id that [check_device_online] returns is not empty and
    has no whitespace in it, so the test [if device_id:] of the menu is
    true for every device that was found. *)
Theorem check_device_online_id_truthy env w device_id w' :
  run env check_device_online w = (Ok (Some device_id), w') →
  truthy (Some device_id) = true
  ∧ Forall (λ c, isspace c = false) device_id.
Proof.
  destruct (run_check_device_online env w) as (w1 & -> & _).
  intros [= Hloc _]. unfold located in Hloc.
  destruct (env_run env (clock w) _) as [e|result]; [done|].
  destruct (stdout_decode result) as [e|text]; [done|].
  destruct (filter _ (splitlines text)) as [|line [|line' rest]]; [done| |done].
  destruct (split line) as [|tok toks] eqn:Hsplit; [done|].
  simpl in Hloc. injection Hloc as ->.
  destruct (split_from_tokens [] line device_id) as [Hne Hns].
  - constructor.
  - unfold split in Hsplit. rewrite Hsplit. apply elem_of_cons. by left.
  - split; [|done]. by destruct device_id.
Qed.

(** ** download_app and the package file *)

Lemma exec_no_request env R (op : Op R) w :
  no_request R op → requested (exec env op w).2 = requested w.
Proof.
  destruct op; simpl; try done.
  - by destruct (env_open _ _ _).
  - by destruct (env_write _ _ _ _).
  - destruct (env_remove _ _ _); [done|]. by destruct (files w !! path).
  - by destruct (files w !! path) as [[]|].
Qed.

Lemma run_no_request env {A} (p : Prog A) w :
  all_ops no_request p → requested (run env p w).2 = requested w.
Proof.
  intros Hp.
  apply (run_keeps env no_request (λ w', requested w' = requested w)); [|done..].
  intros R op w' Hop <-. by apply exec_no_request.
Qed.

(** The write loop of [download_app]: the file grows by the chunks that
    were written, all of them when the loop completes. *)
Lemma write_loop_spec env file_path (progress : bool) (chunks : list (list N)) w b :
  files w !! file_path = Some (Bytes b) →
  ∃ k r w',
    run env
      (for_each chunks (λ data,
         if progress
         then call (FileWrite file_path data);; print (MsgProgress (length data))
         else call (FileWrite file_path data))) w = (r, w')
    ∧ (k ≤ length chunks)%nat
    ∧ files w' !! file_path = Some (Bytes (b ++ concat (take k chunks)))
    ∧ (∀ x, r = Ok x → k = length chunks).
Proof.
  revert w b. induction chunks as [|data chunks IH]; intros w b Hfile.
  - exists 0%nat, (Ok tt), w. split; [done|]. split; [done|].
    split; [by rewrite app_nil_r|done].
  - rewrite run_for_each_cons.
    assert (∃ r1 w1,
      run env (if progress
               then call (FileWrite file_path data);; print (MsgProgress (length data))
               else call (FileWrite file_path data)) w = (r1, w1)
      ∧ ((∃ e, r1 = Err e ∧ files w1 = files w)
         ∨ (r1 = Ok tt ∧ files w1 !! file_path = Some (Bytes (b ++ data)))))
      as (r1 & w1 & -> & Hstep).
    { destruct progress.
      - rewrite run_bind, run_call. simpl exec.
        destruct (env_write env (clock w) file_path data) as [e|]; simpl.
        + eexists _, _. split; [done|]. left. eauto.
        + eexists _, _. split; [done|]. right. split; [done|].
          simpl. rewrite Hfile. apply lookup_insert_eq.
      - rewrite run_call. simpl exec.
        destruct (env_write env (clock w) file_path data) as [e|]; simpl.
        + eexists _, _. split; [done|]. left. eauto.
        + eexists _, _. split; [done|]. right. split; [done|].
          simpl. rewrite Hfile. apply lookup_insert_eq. }
    destruct Hstep as [(e & -> & Hsame)|[-> Hgrown]].
    + exists 0%nat, (Err e), w1. split; [done|]. split; [simpl; lia|].
      split; [by rewrite Hsame, app_nil_r|done].
    + destruct (IH w1 (b ++ data) Hgrown) as (k & r & w' & -> & Hk & Hfile' & Hall).
      exists (S k), r, w'. split; [done|]. split; [simpl; lia|].
      split; [by rewrite Hfile', <- app_assoc|].
      intros x Hx. simpl. f_equal. by eapply Hall.
Qed.

(** X3. When the request is answered, the status check and the length
    header pass and the package file can be opened, the file exists after
    [download_app] and holds the chunks written so far, in order; when
    [download_app] returns a path it holds the whole body. A failure later
    in the transfer leaves the partial file in place. *)
Theorem download_app_writes_body
    env app_name url download_dir show_progress w response total_size :
  let file_path := Path.join download_dir (app_name ++ u ".apk") in
  env_get env (clock w) url = inr response →
  raise_for_status response = None →
  content_length response = inr total_size →
  env_open env (S (clock w)) file_path = None →
  ∃ apk_path status w' k,
    run env (download_app app_name url download_dir show_progress) w
    = (Ok (apk_path, status), w')
    ∧ (k ≤ length (iter_content response))%nat
    ∧ files w' !! file_path = Some (Bytes (concat (take k (iter_content response))))
    ∧ (is_Some apk_path →
       files w' !! file_path = Some (Bytes (concat (iter_content response)))).
Proof.
  cbv zeta. intros Hget Hstatus Hlen Hopen.
  unfold download_app, download_app_try.
  rewrite run_try_except, run_bind, run_print, run_bind, run_call. simpl exec.
  rewrite Hget. cbv iota beta. rewrite Hstatus, Hlen.
  change (raise_if None) with (Ret tt : Prog unit).
  change (value_of (inr total_size)) with (Ret total_size : Prog Z).
  rewrite run_bind, run_ret, run_bind, run_ret, run_bind, run_call. simpl exec.
  rewrite Hopen. cbv iota beta.
  set (file_path := Path.join download_dir (app_name ++ u ".apk")).
  set (w1 := tick (with_files _ _)).
  rewrite run_bind.
  assert (∃ w2 : World, files w2 !! file_path = Some (Bytes []) ∧
    run env
      (if show_progress
       then print (MsgProgressBar app_name total_size);;
            for_each (iter_content response) (λ data,
              call (FileWrite file_path data);; print (MsgProgress (length data)))
       else for_each (iter_content response) (λ data, call (FileWrite file_path data)))
      w1 =
    run env
      (for_each (iter_content response) (λ data,
         if show_progress
         then call (FileWrite file_path data);; print (MsgProgress (length data))
         else call (FileWrite file_path data))) w2) as (w2 & Hw2 & ->).
  { destruct show_progress.
    - rewrite run_bind, run_print. eexists. split; [|done].
      simpl. apply lookup_insert_eq.
    - exists w1. split; [|done]. simpl. apply lookup_insert_eq. }
  destruct (write_loop_spec env file_path show_progress (iter_content response) w2 []
              Hw2) as (k & r & w3 & -> & Hk & Hfile & Hall).
  simpl app in Hfile.
  destruct r as [[]|e]; simpl.
  - rewrite (Hall tt eq_refl), firstn_all in Hfile.
    destruct (iter_error response) as [e|]; simpl.
    + eexists _, _, _, (length (iter_content response)).
      split; [done|]. split; [done|]. rewrite firstn_all. split; [done|].
      by intros [? [=]].
    + eexists _, _, _, (length (iter_content response)).
      split; [done|]. split; [done|]. rewrite firstn_all. done.
  - eexists _, _, _, k. split; [done|]. split; [done|]. split; [done|].
    by intros [? [=]].
Qed.

(** X4. [download_app] makes one request, for the given URL, and no
    second one; it starts no process, touches no counter and changes no
    file other than the package file of the application. *)
Theorem download_app_single_request env app_name url download_dir show_progress w :
  let w' := (run env (download_app app_name url download_dir show_progress) w).2 in
  requested w' = requested w ++ [url]
  ∧ spawned w' = spawned w
  ∧ cells w' = cells w
  ∧ ∀ path, path ≠ Path.join download_dir (app_name ++ u ".apk") →
            files w' !! path = files w !! path.
Proof.
  cbv zeta. split; [|split; [|split]].
  - unfold download_app, download_app_try.
    rewrite run_try_except, run_bind, run_print, run_bind, run_call. simpl exec.
    destruct (env_get env (clock w) url) as [e|response]; cbv iota beta.
    { simpl. done. }
    match goal with |- context [run env ?p ?w0] =>
      assert (all_ops no_request p) as Hrest
        by (unfold print; ops; destruct show_progress; ops);
      pose proof (run_no_request env p w0 Hrest) as Hkeep;
      destruct (run env p w0) as [[r|e] w1]
    end; simpl in Hkeep; [done|].
    simpl. done.
  - apply run_no_spawn, download_app_no_spawn.
  - apply run_no_store, download_app_no_store.
  - intros path Hpath. apply run_leaves_file.
    apply download_app_ops; try done; intros; simpl; congruence.
Qed.

(** ** install_app and the world *)

Lemma install_app_no_request device_id apk_path show_progress :
  all_ops no_request (install_app device_id apk_path show_progress).
Proof.
  unfold install_app, install_app_try, print. ops. destruct device_id; ops.
Qed.

(** X5. With a device id, [install_app] starts exactly one process, the
    install subcommand of the bridge tool for that device and package, and
    changes no file, no counter and requests nothing, whether it returns a
    status or raises. *)
Theorem install_app_runs_one_command env device apk_path show_progress w :
  let w' := (run env (install_app (Some device) apk_path show_progress) w).2 in
  spawned w' = spawned w ++ [[u "adb"; u "-s"; device; u "install"; apk_path]]
  ∧ files w' = files w
  ∧ cells w' = cells w
  ∧ requested w' = requested w.
Proof.
  cbv zeta. split; [apply install_app_spawned|]. split; [|split].
  - apply run_leaves_files, install_app_leaves_files.
  - apply run_no_store, install_app_no_store.
  - apply run_no_request, install_app_no_request.
Qed.

(** ** The download workflows and the ledger *)

(** X7. Without a file download.xlsx in the directory, [download_apps]
    and [download_and_install_apps] print that the file was not found and
    return: nothing else in the world changes, with or without the pool. *)
Theorem batch_without_ledger env device_id download_dir parallel schedule w :
  files w !! Path.join download_dir (u "download.xlsx") = None →
  download_apps env device_id download_dir parallel schedule w
  = (Ok tt, with_console (console w ++ [MsgNoExcel]) w)
  ∧ download_and_install_apps env device_id download_dir parallel schedule w
    = (Ok tt, with_console (console w ++ [MsgNoExcel]) w).
Proof.
  intros Hfile. unfold download_apps, download_and_install_apps. cbv zeta.
  rewrite !top_bind_eq, !run_call. simpl exec. rewrite Hfile.
  rewrite bool_decide_false by (by intros [? [=]]). done.
Qed.

(** ** A task that raises *)

(** X12. The task of [download_and_install_apps] writes the ledger last:
    when the task raises (the installer raised something other than
    CalledProcessError, or the ledger could not be read), the ledger file
    is as it was before the task, also when the download had succeeded. *)
Theorem process_app_raises_before_recording env device_id download_dir row w e w' :
  run env (process_app device_id download_dir
             (Path.join download_dir (u "download.xlsx")) row) w = (Err e, w') →
  files w' !! Path.join download_dir (u "download.xlsx")
  = files w !! Path.join download_dir (u "download.xlsx").
Proof.
  unfold process_app.
  destruct (download_app_total env (row_name row) (row_url row) download_dir true w)
    as ([apk_path ds] & w1 & Hdl & _).
  pose proof (run_leaves_file env _ _ w (download_app_leaves_excel
    (row_name row) (row_url row) download_dir true)) as Hfile1.
  rewrite Hdl in Hfile1. simpl in Hfile1.
  rewrite run_bind, Hdl, run_bind.
  assert (∃ c, run env (if contains (u "成功") ds
                        then incr download_success else incr download_failure) w1
               = (Ok tt, with_cells c w1)) as [c ->].
  { destruct (contains _ _); rewrite run_incr; eauto. }
  rewrite run_bind.
  match goal with |- context [run env ?p (with_cells c w1)] =>
    assert (all_ops leaves_files p) as Hp
      by (destruct (truthy apk_path); [|done];
          apply all_ops_bind; [by apply install_app_ops|]; intros;
          apply all_ops_bind; [by apply incr_ops|]; intros;
          apply all_ops_bind; [destruct (contains _ _); by apply incr_ops|done]);
    pose proof (run_leaves_files env p (with_cells c w1) Hp) as Hfile2;
    destruct (run env p (with_cells c w1)) as [[install_status|e2] w2]
  end; simpl in Hfile2.
  - unfold update_excel_status. rewrite run_bind, run_call. simpl exec.
    destruct (files w2 !! _) as [[b|led]|] eqn:Hled.
    + intros [= _ <-]. by rewrite Hled, <- Hfile1, <- Hfile2.
    + done.
    + intros [= _ <-]. by rewrite Hled, <- Hfile1, <- Hfile2.
  - intros [= _ <-]. by rewrite Hfile2.
Qed.

(** ** install_local_apks *)

Section InstallLocal.
Context (env : Env).

Lemma install_apk_counts device_id apk_dir excel_file df apk_file w w' :
  run env (install_apk device_id apk_dir excel_file df apk_file) w = (Ok tt, w') →
  installs_counted (cells w') = (installs_counted (cells w) + 1)%Z.
Proof.
  unfold install_apk. rewrite run_bind.
  pose proof (run_no_store env _ w
    (install_app_no_store device_id (Path.join apk_dir apk_file) true)) as Hc1.
  destruct (run env (install_app _ _ _) w) as [[install_status|e] w1]; [|done].
  simpl in Hc1. rewrite run_bind.
  match goal with |- context [run env (update_excel_status ?a ?b ?c ?d ?e) w1] =>
    pose proof (run_no_store env _ w1 (update_excel_status_no_store a b c d e)) as Hc2;
    destruct (run env (update_excel_status a b c d e) w1) as [[[]|e2] w2]; [|done]
  end.
  simpl in Hc2. rewrite run_bind.
  destruct (contains _ _); rewrite run_incr, run_print; intros [= <-]; simpl;
    rewrite Hc2, Hc1; unfold installs_counted; destruct (cells w); simpl; lia.
Qed.

Lemma install_apk_loop_counts device_id apk_dir excel_file df (apk_files : list str)
    w w' :
  run env (for_each (install_apk device_id apk_dir excel_file df <$> apk_files) id) w
    = (Ok tt, w') →
  installs_counted (cells w') =
  (installs_counted (cells w) + Z.of_nat (length apk_files))%Z.
Proof.
  revert w. induction apk_files as [|apk_file apk_files IH]; intros w.
  - intros [= <-]. simpl. lia.
  - rewrite fmap_cons, run_for_each_cons. unfold id at 1.
    destruct (run env (install_apk _ _ _ _ _) w) as [[[]|e] w1] eqn:Htask; [|done].
    apply install_apk_counts in Htask.
    intros Hrest. apply IH in Hrest. rewrite Hrest, Htask, length_cons. lia.
Qed.

End InstallLocal.

(** X13. Run without the pool, [install_local_apks] that finds package
    files and completes prints a summary in which success + failure equals
    the total, and the total is the number of .apk files listed (after the
    ledger file was created, when it was missing). *)
Theorem install_local_apks_sequential_counts
    env device_id apk_dir excel_file schedule w w' :
  let files1 :=
    if bool_decide (is_Some (files w !! excel_file)) then files w
    else <[excel_file := Workbook []]> (files w) in
  let apk_files := filter (λ f : str, endswith f (u ".apk")) (listdir files1 apk_dir) in
  apk_files ≠ [] →
  install_local_apks env device_id apk_dir excel_file false schedule w = (Ok tt, w') →
  ∃ success failure,
    last (console w') =
      Some (MsgInstallSummary success failure (Z.of_nat (length apk_files)))
    ∧ (success + failure)%Z = Z.of_nat (length apk_files).
Proof.
  cbv zeta. intros Hapk. unfold install_local_apks.
  rewrite top_bind_eq, run_call. simpl exec. cbv iota beta.
  rewrite top_bind_eq.
  set (files1 := if bool_decide (is_Some (files w !! excel_file)) then files w
                 else <[excel_file := Workbook []]> (files w)) in *.
  assert (∃ w1, (if negb (bool_decide (is_Some (files w !! excel_file)))
                 then run env (print (MsgExcelCreating excel_file);;
                               call (ToExcel excel_file []);;
                               print (MsgExcelCreated excel_file))
                 else mret tt) w = (Ok tt, w1)
                ∧ files w1 = files1) as (w1 & -> & Hfiles1).
  { unfold files1. destruct (bool_decide _); simpl; eauto. }
  rewrite top_bind_eq, run_call. simpl exec. cbv iota beta. rewrite Hfiles1.
  rewrite bool_decide_false by done.
  rewrite top_bind_eq, run_call. simpl exec. rewrite Hfiles1.
  destruct (files1 !! excel_file) as [[b|df]|]; [done| |done].
  rewrite top_bind_eq. simpl run at 1. cbv iota.
  rewrite top_bind_eq. unfold run_tasks.
  match goal with |- context [run env (for_each _ id) ?w0] =>
    destruct (run env (for_each _ id) w0) as [[[]|e] w2] eqn:Hloop; [|done];
    apply install_apk_loop_counts in Hloop
  end.
  unfold installs_counted in Hloop. simpl in Hloop.
  simpl. intros [= <-]. simpl. rewrite last_snoc.
  eexists _, _. split; [done|]. lia.
Qed.

(** X15. [install_local_apks] creates the ledger as an empty workbook when
    it is missing, and when the directory then lists no .apk file it
    prints that none was found and returns: no process is started and no
    other file changes, with or without the pool. *)
Theorem install_local_apks_no_packages
    env device_id apk_dir excel_file parallel schedule w :
  let files1 :=
    if bool_decide (is_Some (files w !! excel_file)) then files w
    else <[excel_file := Workbook []]> (files w) in
  filter (λ f : str, endswith f (u ".apk")) (listdir files1 apk_dir) = [] →
  ∃ w',
    install_local_apks env device_id apk_dir excel_file parallel schedule w = (Ok tt, w')
    ∧ files w' = files1
    ∧ spawned w' = spawned w
    ∧ last (console w') = Some MsgNoApk.
Proof.
  cbv zeta. intros Hapk. unfold install_local_apks.
  rewrite top_bind_eq, run_call. simpl exec. cbv iota beta.
  rewrite top_bind_eq.
  set (files1 := if bool_decide (is_Some (files w !! excel_file)) then files w
                 else <[excel_file := Workbook []]> (files w)) in *.
  assert (∃ w1, (if negb (bool_decide (is_Some (files w !! excel_file)))
                 then run env (print (MsgExcelCreating excel_file);;
                               call (ToExcel excel_file []);;
                               print (MsgExcelCreated excel_file))
                 else mret tt) w = (Ok tt, w1)
                ∧ files w1 = files1 ∧ spawned w1 = spawned w)
    as (w1 & -> & Hfiles1 & Hsp).
  { unfold files1. destruct (bool_decide _); simpl; eauto. }
  rewrite top_bind_eq, run_call. simpl exec. cbv iota beta. rewrite Hfiles1, Hapk.
  rewrite bool_decide_true by done. rewrite run_print.
  eexists. split; [done|]. simpl. by rewrite last_snoc.
Qed.

(** ** The menu *)

Lemma top_bind_true {A} (m : M A) (w : World) r w' :
  (m ≫= λ _, mret true) w = (r, w') → r ≠ Ok false.
Proof.
  rewrite top_bind_eq. destruct (m w) as [[a|e] w1]; by intros [= <- _].
Qed.

(** X17. One turn of the menu ends the loop exactly when the answer,
    stripped and lower-cased, is "q"; after any other answer the loop goes
    on, unless the chosen workflow raises. *)
Theorem main_iteration_quits_only_on_q env schedule w answer :
  env_input env (clock w) menu_prompt = inr answer →
  (main_iteration env schedule w).1 = Ok false
  ↔ lower (env_lower env) (strip answer) = u "q".
Proof.
  intros Hinput. unfold main_iteration.
  rewrite top_bind_eq, run_print, top_bind_eq, run_call. simpl exec.
  unfold menu_prompt in Hinput. rewrite Hinput. cbv zeta iota beta.
  destruct (bool_decide (lower (env_lower env) (strip answer) = u "q")) eqn:Hq.
  - apply bool_decide_eq_true in Hq. split; [done|]. intros _. reflexivity.
  - apply bool_decide_eq_false in Hq. split; [|done].
    intros Hres. exfalso.
    match goal with H : (?m ?w0).1 = Ok false |- _ =>
      destruct (m w0) as [r w'] eqn:Hrun
    end.
    apply top_bind_true in Hrun. simpl in Hres. done.
Qed.

(** X18. Menu choices 2 and 3 look for the device first; when none is
    located the turn ends there: apart from the one [adb devices] process
    and the console, nothing changes, no download is requested and the
    installer is not called. *)
Theorem main_iteration_without_device env schedule w answer :
  env_input env (clock w) menu_prompt = inr answer →
  lower (env_lower env) (strip answer) = u "2"
  ∨ lower (env_lower env) (strip answer) = u "3" →
  located (env_run env (S (clock w)) [u "adb"; u "devices"]) = None →
  ∃ w',
    main_iteration env schedule w = (Ok true, w')
    ∧ spawned w' = spawned w ++ [[u "adb"; u "devices"]]
    ∧ files w' = files w
    ∧ requested w' = requested w
    ∧ install_attempts w' = install_attempts w.
Proof.
  intros Hinput Hchoice Hnone. unfold main_iteration.
  rewrite top_bind_eq, run_print, top_bind_eq, run_call. simpl exec.
  unfold menu_prompt in Hinput. rewrite Hinput. cbv zeta iota beta.
  set (w1 := tick (with_console (console w ++ [MsgMenu]) w)).
  destruct (run_check_device_online env w1)
    as (w2 & Hrun & Hsp & Hfiles & Hreq & _ & Hatt).
  change (clock w1) with (S (clock w)) in Hrun. rewrite Hnone in Hrun.
  assert (install_attempts w1 = install_attempts w) as Hatt1.
  { unfold w1, install_attempts. simpl. by rewrite omap_app, app_nil_r. }
  destruct Hchoice as [-> | ->].
  - rewrite (bool_decide_false (u "2" = u "q")) by (by vm_compute).
    rewrite (bool_decide_false (u "2" = u "1")) by (by vm_compute).
    rewrite (bool_decide_true (u "2" = u "2")) by done.
    rewrite top_bind_eq, top_bind_eq, Hrun. simpl.
    eexists. split; [done|]. rewrite Hsp, Hfiles, Hreq, Hatt. done.
  - rewrite (bool_decide_false (u "3" = u "q")) by (by vm_compute).
    rewrite (bool_decide_false (u "3" = u "1")) by (by vm_compute).
    rewrite (bool_decide_false (u "3" = u "2")) by (by vm_compute).
    rewrite (bool_decide_true (u "3" = u "3")) by done.
    rewrite top_bind_eq, top_bind_eq, Hrun. simpl.
    eexists. split; [done|]. rewrite Hsp, Hfiles, Hreq, Hatt. done.
Qed.

(** ** delete_all_apks and exceptions *)

(** X16. [delete_all_apks] raises only when the prompt itself raises: a
    removal that fails is reported and the loop goes on. With no .apk file
    listed it returns without prompting. *)
Theorem delete_all_apks_raises_only_at_prompt env current_dir w :
  (run env (delete_all_apks env current_dir) w).1 =
  if bool_decide (filter (λ f : str, endswith f (u ".apk"))
                    (listdir (files w) current_dir) = [])
  then Ok tt
  else match env_input env (clock w) delete_prompt with
       | inl e => Err e
       | inr _ => Ok tt
       end.
Proof.
  unfold delete_all_apks.
  rewrite run_bind, run_call. simpl exec. cbv iota beta.
  set (apk_files := filter _ (listdir (files w) current_dir)).
  destruct (bool_decide (apk_files = [])); [done|].
  rewrite run_bind, run_print, run_bind, run_call. simpl exec.
  destruct (env_input env (clock w) delete_prompt) as [e|answer]; cbv iota beta; [done|].
  destruct (bool_decide (lower (env_lower env) (strip answer) = u "y")).
  - destruct (remove_loop_spec env current_dir apk_files
                (tick (with_console (console w ++ [MsgToDelete apk_files]) w)))
      as (w' & -> & _). done.
  - by destruct (bool_decide (lower (env_lower env) (strip answer) = u "n")).
Qed.

Import Scenario.

(** ** The further properties at concrete inputs *)

Lemma download_apps_sequential_counts_witness :
  files (world_with [app_a; app_b]) !! Path.join work_dir (u "download.xlsx")
    = Some (Workbook [app_a; app_b])
  ∧ download_apps env_ok None work_dir false [] (world_with [app_a; app_b])
    = (Ok tt, (download_apps env_ok None work_dir false [] (world_with [app_a; app_b])).2)
  ∧ ∃ success failure,
      last (console (download_apps env_ok None work_dir false []
                       (world_with [app_a; app_b])).2)
      = Some (MsgDownloadSummary success failure (Z.of_nat (length [app_a; app_b])))
      ∧ (success + failure)%Z = Z.of_nat (length [app_a; app_b]).
Proof.
  split; [reflexivity|]. split; [vm_compute; reflexivity|].
  apply (download_apps_sequential_counts env_ok None work_dir []
           (world_with [app_a; app_b]) [app_a; app_b]).
  - reflexivity.
  - vm_compute. reflexivity.
Defined.

Lemma download_and_install_apps_sequential_counts_witness :
  files (world_with [app_a; app_b]) !! Path.join work_dir (u "download.xlsx")
    = Some (Workbook [app_a; app_b])
  ∧ download_and_install_apps env_ok (Some (u "emulator-5554")) work_dir false []
      (world_with [app_a; app_b])
    = (Ok tt, (download_and_install_apps env_ok (Some (u "emulator-5554")) work_dir
                 false [] (world_with [app_a; app_b])).2)
  ∧ ∃ msgs d_success d_failure i_success i_failure i_total,
      console (download_and_install_apps env_ok (Some (u "emulator-5554")) work_dir
                 false [] (world_with [app_a; app_b])).2
      = msgs ++ [MsgDownloadSummary d_success d_failure
                   (Z.of_nat (length [app_a; app_b]));
                 MsgInstallSummary i_success i_failure i_total]
      ∧ (d_success + d_failure)%Z = Z.of_nat (length [app_a; app_b])
      ∧ (i_success + i_failure)%Z = i_total.
Proof.
  split; [reflexivity|]. split; [vm_compute; reflexivity|].
  apply (download_and_install_apps_sequential_counts env_ok (Some (u "emulator-5554"))
           work_dir [] (world_with [app_a; app_b]) [app_a; app_b]).
  - reflexivity.
  - vm_compute. reflexivity.
Defined.

Lemma install_local_apks_sequential_counts_witness :
  filter (λ f : str, endswith f (u ".apk"))
    (listdir (files (world_with_apk [app_b])) work_dir) ≠ []
  ∧ install_local_apks env_ok (Some (u "emulator-5554")) work_dir excel_file false []
      (world_with_apk [app_b])
    = (Ok tt, (install_local_apks env_ok (Some (u "emulator-5554")) work_dir excel_file
                 false [] (world_with_apk [app_b])).2)
  ∧ ∃ success failure,
      last (console (install_local_apks env_ok (Some (u "emulator-5554")) work_dir
                       excel_file false [] (world_with_apk [app_b])).2)
      = Some (MsgInstallSummary success failure 1)
      ∧ (success + failure)%Z = 1%Z.
Proof.
  split; [by vm_compute|]. split; [vm_compute; reflexivity|].
  destruct (install_local_apks_sequential_counts env_ok (Some (u "emulator-5554"))
              work_dir excel_file [] (world_with_apk [app_b])
              (install_local_apks env_ok (Some (u "emulator-5554")) work_dir excel_file
                 false [] (world_with_apk [app_b])).2)
    as (success & failure & Hlast & Hsum).
  - by vm_compute.
  - vm_compute. reflexivity.
  - exists success, failure. split; [exact Hlast|exact Hsum].
Defined.

Lemma batch_without_ledger_witness :
  files empty_world !! Path.join work_dir (u "download.xlsx") = None
  ∧ download_apps env_ok None work_dir true [] empty_world
    = (Ok tt, with_console (console empty_world ++ [MsgNoExcel]) empty_world)
  ∧ download_and_install_apps env_ok None work_dir true [] empty_world
    = (Ok tt, with_console (console empty_world ++ [MsgNoExcel]) empty_world).
Proof.
  split; [reflexivity|].
  apply (batch_without_ledger env_ok None work_dir true [] empty_world). reflexivity.
Defined.

Lemma check_device_online_id_truthy_witness :
  run env_ok check_device_online empty_world
    = (Ok (Some (u "emulator-5554")), (run env_ok check_device_online empty_world).2)
  ∧ truthy (Some (u "emulator-5554")) = true
  ∧ Forall (λ c, isspace c = false) (u "emulator-5554").
Proof.
  split; [vm_compute; reflexivity|].
  apply (check_device_online_id_truthy env_ok empty_world (u "emulator-5554")
           (run env_ok check_device_online empty_world).2).
  vm_compute. reflexivity.
Defined.

Lemma download_app_writes_body_witness :
  env_get env_ok (clock empty_world) (u "http://host/a.apk")
    = inr {| raise_for_status := None; content_length := inr 3%Z;
             iter_content := [[80; 75; 3]]; iter_error := None |}
  ∧ env_open env_ok (S (clock empty_world)) (Path.join work_dir (u "a" ++ u ".apk")) = None
  ∧ ∃ apk_path status w',
      run env_ok (download_app (u "a") (u "http://host/a.apk") work_dir true) empty_world
      = (Ok (apk_path, status), w')
      ∧ (is_Some apk_path →
         files w' !! Path.join work_dir (u "a" ++ u ".apk") = Some (Bytes [80; 75; 3])).
Proof.
  split; [reflexivity|]. split; [reflexivity|].
  destruct (download_app_writes_body env_ok (u "a") (u "http://host/a.apk") work_dir true
              empty_world
              {| raise_for_status := None; content_length := inr 3%Z;
                 iter_content := [[80; 75; 3]]; iter_error := None |} 3%Z
              eq_refl eq_refl eq_refl eq_refl)
    as (apk_path & status & w' & k & Hrun & _ & _ & Hfull).
  exists apk_path, status, w'. split; [exact Hrun|exact Hfull].
Defined.

Lemma install_local_apks_no_packages_witness :
  filter (λ f : str, endswith f (u ".apk"))
    (listdir (<[excel_file := Workbook []]> (files empty_world)) work_dir) = []
  ∧ ∃ w',
      install_local_apks env_ok (Some (u "emulator-5554")) work_dir excel_file true []
        empty_world = (Ok tt, w')
      ∧ files w' !! excel_file = Some (Workbook [])
      ∧ spawned w' = []
      ∧ last (console w') = Some MsgNoApk.
Proof.
  split; [vm_compute; reflexivity|].
  destruct (install_local_apks_no_packages env_ok (Some (u "emulator-5554")) work_dir
              excel_file true [] empty_world)
    as (w' & Hrun & Hfiles & Hsp & Hlast).
  - vm_compute. reflexivity.
  - exists w'. split; [exact Hrun|]. split; [|split; [exact Hsp|exact Hlast]].
    rewrite Hfiles. vm_compute. reflexivity.
Defined.

Lemma process_app_raises_before_recording_witness :
  run env_no_adb
    (process_app (Some (u "emulator-5554")) work_dir
       (Path.join work_dir (u "download.xlsx")) app_a) (world_with [app_a])
  = (Err (Exn FileNotFoundError (u "No such file or directory: 'adb'")),
     (run env_no_adb
        (process_app (Some (u "emulator-5554")) work_dir
           (Path.join work_dir (u "download.xlsx")) app_a) (world_with [app_a])).2)
  ∧ files (run env_no_adb
             (process_app (Some (u "emulator-5554")) work_dir
                (Path.join work_dir (u "download.xlsx")) app_a) (world_with [app_a])).2
    !! Path.join work_dir (u "download.xlsx")
    = files (world_with [app_a]) !! Path.join work_dir (u "download.xlsx").
Proof.
  split; [vm_compute; reflexivity|].
  apply (process_app_raises_before_recording env_no_adb (Some (u "emulator-5554"))
           work_dir app_a (world_with [app_a])
           (Exn FileNotFoundError (u "No such file or directory: 'adb'"))).
  vm_compute. reflexivity.
Defined.

Lemma main_iteration_quits_only_on_q_witness :
  env_input (env_of (u " Q ") no_device_listing) (clock empty_world) menu_prompt
    = inr (u " Q ")
  ∧ (main_iteration (env_of (u " Q ") no_device_listing) [] empty_world).1 = Ok false.
Proof.
  split; [reflexivity|].
  apply (main_iteration_quits_only_on_q (env_of (u " Q ") no_device_listing) []
           empty_world (u " Q ") eq_refl).
  vm_compute. reflexivity.
Defined.

Lemma main_iteration_without_device_witness :
  env_input (env_of (u "3") no_device_listing) (clock (world_with [app_a])) menu_prompt
    = inr (u "3")
  ∧ located (env_run (env_of (u "3") no_device_listing) (S (clock (world_with [app_a])))
               [u "adb"; u "devices"]) = None
  ∧ ∃ w',
      main_iteration (env_of (u "3") no_device_listing) [] (world_with [app_a])
      = (Ok true, w')
      ∧ files w' = files (world_with [app_a])
      ∧ requested w' = [].
Proof.
  split; [reflexivity|]. split; [vm_compute; reflexivity|].
  destruct (main_iteration_without_device (env_of (u "3") no_device_listing) []
              (world_with [app_a]) (u "3") eq_refl)
    as (w' & Hrun & _ & Hfiles & Hreq & _).
  - right. vm_compute. reflexivity.
  - vm_compute. reflexivity.
  - exists w'. split; [exact Hrun|]. split; [exact Hfiles|exact Hreq].
Defined.

Lemma run_update_excel_status_unreadable_witness :
  (∀ df, files empty_world !! excel_file ≠ Some (Workbook df))
  ∧ ∃ e,
      run env_ok
        (update_excel_status excel_file (u "a") (u "http://host/a.apk")
           (u "下载成功") (u "未安装")) empty_world = (Err e, empty_world).
Proof.
  assert (∀ df, files empty_world !! excel_file ≠ Some (Workbook df)) as H.
  { intros df. vm_compute. discriminate. }
  split; [exact H|].
  apply (run_update_excel_status_unreadable env_ok excel_file (u "a")
           (u "http://host/a.apk") (u "下载成功") (u "未安装") empty_world H).
Defined.

(** * The ledger cell by cell *)

Section Cells.

Import Pandas.

Context {number : Type} `{EqDecision number}.
Variable parser : Parser number.

Lemma length_parse_column col values :
  parse_column parser col = Some values → length values = length col.
Proof.
  unfold parse_column. destruct (mapM _ col) as [values'|] eqn:E.
  - intros [= <-]. symmetry. by eapply length_mapM.
  - destruct (booleans parser col); [done|]. intros [= <-]. apply length_fmap.
Qed.

Lemma length_rows_of_columns {A} (l1 l2 l3 l4 : list A) n :
  length l1 = n → length l2 = n → length l3 = n → length l4 = n →
  length (rows_of_columns l1 l2 l3 l4) = n.
Proof.
  intros H1 H2 H3 H4. unfold rows_of_columns.
  rewrite length_zip_with, !length_zip_with, H1, H2, H3, H4. lia.
Qed.

(** What [read_excel] returns is made of the four columns as they are
    parsed. *)
Lemma read_excel_Some sheet df :
  read_excel parser sheet = Some df →
  ∃ names urls download install,
    parse_column parser (e_name <$> sheet) = Some names
    ∧ parse_column parser (e_url <$> sheet) = Some urls
    ∧ parse_column parser (e_download_status <$> sheet) = Some download
    ∧ parse_column parser (e_install_status <$> sheet) = Some install
    ∧ df = rows_of_columns names urls download install.
Proof.
  unfold read_excel. intros Hread.
  destruct (parse_column parser (e_name <$> sheet)) as [names|]; [|done].
  destruct (parse_column parser (e_url <$> sheet)) as [urls|]; [|done].
  destruct (parse_column parser (e_download_status <$> sheet)) as [download|]; [|done].
  destruct (parse_column parser (e_install_status <$> sheet)) as [install|]; [|done].
  simpl in Hread. injection Hread as <-. by exists names, urls, download, install.
Qed.

Lemma length_read_excel sheet df :
  read_excel parser sheet = Some df → length df = length sheet.
Proof.
  intros (names & urls & download & install & Hn & Hu & Hd & Hi & ->)%read_excel_Some.
  apply length_rows_of_columns.
  - by rewrite (length_parse_column _ _ Hn), length_fmap.
  - by rewrite (length_parse_column _ _ Hu), length_fmap.
  - by rewrite (length_parse_column _ _ Hd), length_fmap.
  - by rewrite (length_parse_column _ _ Hi), length_fmap.
Qed.

Lemma length_to_excel (df : Frame number) : length (to_excel df) = length df.
Proof. apply length_fmap. Qed.

(** A text among the values of a column is never one of the missing
    values. *)
Lemma parse_column_Str col values s :
  parse_column parser col = Some values →
  Str s ∈ values → na_value parser s = false.
Proof.
  unfold parse_column. destruct (mapM _ col) as [values'|] eqn:E.
  - intros [= <-]. apply mapM_Some_1 in E. intros Hin.
    induction E as [|c v col values Hc _ IH]; [by apply elem_of_nil in Hin|].
    apply elem_of_cons in Hin as [<-|Hin]; [|by apply IH].
    destruct c as [|t|n]; simpl in Hc; [done| |done].
    destruct (na_value parser t); [done|]. by destruct (numeric parser t).
  - destruct (booleans parser col); [done|]. intros [= <-].
    intros (c & Hc & _)%list_elem_of_fmap.
    destruct c as [|t|n]; simpl in Hc; [done| |done].
    destruct (na_value parser t) eqn:Et; [done|]. by injection Hc as ->.
Qed.

Lemma rows_of_columns_name {A} (l1 l2 l3 l4 : list A) r :
  r ∈ rows_of_columns l1 l2 l3 l4 → e_name r ∈ l1.
Proof.
  unfold rows_of_columns.
  intros ([a b] & q & -> & Ha & _)%elem_of_zip_with. simpl.
  by eapply elem_of_zip_l.
Qed.

(** Line 81 never finds a name that reads as missing. *)
Lemma name_index_missing sheet df name :
  read_excel parser sheet = Some df →
  na_value parser name = true →
  name_index df (Str name) = None.
Proof.
  intros (names & urls & download & install & Hn & _ & _ & _ & ->)%read_excel_Some Hna.
  unfold name_index.
  destruct (list_find _ _) as [[i r]|] eqn:E; [|done]. exfalso.
  apply list_find_Some in E as (Hi & Heq & _).
  apply list_elem_of_lookup_2, rows_of_columns_name in Hi.
  destruct (e_name r) as [|s|n]; simpl in Heq; [done| |done].
  apply bool_decide_eq_true in Heq as ->.
  apply (parse_column_Str _ _ _ Hn) in Hi. congruence.
Qed.

(** *** Rows of text *)

Lemma to_cell_value_of (s : str) : to_cell (value_of s) = cell_of (number := number) s.
Proof. unfold value_of, cell_of. by destruct (bool_decide _). Qed.

Lemma value_of_nonempty (s : str) : s ≠ [] → value_of s = Str (number := number) s.
Proof. intros Hs. unfold value_of. by rewrite bool_decide_eq_false_2. Qed.

Lemma to_number_cell_of (s : str) :
  s = [] ∨ plain parser s →
  to_number parser (cell_of s) = if bool_decide (s = []) then Some NaN else None.
Proof.
  unfold cell_of. intros [->|(Hs & Hna & Hnum & _)].
  - by rewrite bool_decide_eq_true_2.
  - rewrite bool_decide_eq_false_2 by done. simpl. by rewrite Hna, Hnum.
Qed.

Lemma to_object_cell_of (s : str) :
  s = [] ∨ plain parser s → to_object parser (cell_of s) = value_of s.
Proof.
  unfold cell_of, value_of. intros [->|(Hs & Hna & _)].
  - by rewrite bool_decide_eq_true_2.
  - rewrite bool_decide_eq_false_2 by done. simpl. by rewrite Hna.
Qed.

(** A column of blank cells and plain texts: either it is blank
    throughout, or it does not convert to numbers and is not tried
    further as booleans. *)
Lemma mapM_to_number_cell_of (l : list str) :
  Forall (λ s, s = [] ∨ plain parser s) l →
  match mapM (to_number parser) (cell_of <$> l) with
  | Some values => values = value_of <$> l
  | None => booleans parser (cell_of <$> l) = false
  end.
Proof.
  induction 1 as [|s l Hs _ IH]; [done|].
  rewrite !fmap_cons. cbn [mapM]. rewrite (to_number_cell_of s Hs).
  destruct (bool_decide (s = [])) eqn:Es; simpl.
  - apply bool_decide_eq_true in Es as ->.
    destruct (mapM _ (cell_of <$> l)) as [values|]; simpl.
    + by rewrite IH.
    + by rewrite IH.
  - destruct Hs as [->|(Hs & Hna & _ & Hbool)]; [by rewrite bool_decide_eq_true_2 in Es|].
    unfold cell_of. rewrite bool_decide_eq_false_2 by done.
    by rewrite Hna, Hbool.
Qed.

Lemma parse_column_text (l : list str) :
  Forall (λ s, s = [] ∨ plain parser s) l →
  parse_column parser (cell_of <$> l) = Some (value_of <$> l).
Proof.
  intros Hl. unfold parse_column.
  pose proof (mapM_to_number_cell_of l Hl) as Hm.
  destruct (mapM _ _) as [values|]; [by rewrite Hm|]. rewrite Hm.
  f_equal. rewrite <- list_fmap_compose. apply Forall_fmap_ext.
  eapply Forall_impl; [exact Hl|]. intros s Hs. by apply to_object_cell_of.
Qed.

Lemma rows_of_columns_fmap {A B} (f1 f2 f3 f4 : B → A) (l : list B) :
  rows_of_columns (f1 <$> l) (f2 <$> l) (f3 <$> l) (f4 <$> l)
  = (λ r, {| e_name := f1 r; e_url := f2 r;
             e_download_status := f3 r; e_install_status := f4 r |}) <$> l.
Proof.
  unfold rows_of_columns. induction l as [|r l IH]; [done|].
  rewrite !fmap_cons. simpl. by rewrite IH.
Qed.

Lemma sheet_of_columns (df : DataFrame) :
  e_name <$> sheet_of (number := number) df = cell_of <$> (row_name <$> df)
  ∧ e_url <$> sheet_of (number := number) df = cell_of <$> (row_url <$> df)
  ∧ e_download_status <$> sheet_of (number := number) df
    = cell_of <$> (row_download_status <$> df)
  ∧ e_install_status <$> sheet_of (number := number) df
    = cell_of <$> (row_install_status <$> df).
Proof. unfold sheet_of. by rewrite <- !list_fmap_compose. Qed.

Lemma read_excel_sheet_of (df : DataFrame) :
  Forall (plain_row parser) df →
  read_excel parser (sheet_of df) = Some (frame_of df).
Proof.
  intros Hdf. unfold read_excel.
  destruct (sheet_of_columns df) as (-> & -> & -> & ->).
  assert (∀ f : Row → str,
            (∀ r, plain_row parser r → f r = [] ∨ plain parser (f r)) →
            Forall (λ s, s = [] ∨ plain parser s) (f <$> df)) as Hcol.
  { intros f Hf. apply Forall_fmap. eapply Forall_impl; [exact Hdf|]. exact Hf. }
  rewrite parse_column_text by (apply Hcol; intros r (? & ? & ? & ?); first [by right | done]).
  cbn [mbind option_bind].
  rewrite parse_column_text by (apply Hcol; intros r (? & ? & ? & ?); first [by right | done]).
  cbn [mbind option_bind].
  rewrite parse_column_text by (apply Hcol; intros r (? & ? & ? & ?); first [by right | done]).
  cbn [mbind option_bind].
  rewrite parse_column_text by (apply Hcol; intros r (? & ? & ? & ?); first [by right | done]).
  cbn [mbind option_bind]. f_equal. unfold frame_of.
  rewrite <- !list_fmap_compose.
  exact (rows_of_columns_fmap (value_of ∘ row_name) (value_of ∘ row_url)
           (value_of ∘ row_download_status) (value_of ∘ row_install_status) df).
Qed.

Lemma to_excel_frame_of (df : DataFrame) :
  to_excel (frame_of df) = sheet_of (number := number) df.
Proof.
  unfold to_excel, frame_of, sheet_of. rewrite <- list_fmap_compose.
  apply list_fmap_ext. intros i r _. simpl. by rewrite !to_cell_value_of.
Qed.

Lemma value_eqb_value_of (s app_name : str) :
  app_name ≠ [] →
  value_eqb (value_of (number := number) s) (Str app_name) = true ↔ s = app_name.
Proof.
  intros Hne. unfold value_of. destruct (bool_decide (s = [])) eqn:Es; simpl.
  - apply bool_decide_eq_true in Es as ->. split; [done|]. by intros <-.
  - apply bool_decide_eq_true.
Qed.

Lemma name_index_frame_of (df : DataFrame) (app_name : str) :
  app_name ≠ [] →
  Pandas.name_index (frame_of (number := number) df) (Str app_name)
  = Ledger.name_index df app_name.
Proof.
  intros Hne. unfold Pandas.name_index, Ledger.name_index, frame_of.
  rewrite list_find_fmap.
  rewrite (list_find_ext _ (λ r, row_name r = app_name)).
  - by destruct (list_find _ df) as [[i r]|].
  - intros r. simpl. by apply value_eqb_value_of.
Qed.

(** Lines 81 to 95 on a frame of text are [upsert]. *)
Lemma update_frame_of (df : DataFrame) (app_name url ds is' : str) :
  app_name ≠ [] → ds ≠ [] → is' ≠ [] →
  update (frame_of (number := number) df) (Str app_name) (value_of url) ds is'
  = frame_of (upsert df app_name url ds is').
Proof.
  intros Hname Hds His. unfold update, upsert.
  rewrite name_index_frame_of by done.
  destruct (Ledger.name_index df app_name) as [index|].
  - unfold frame_of. symmetry. apply list_fmap_alter.
    apply Forall_forall. intros r _. unfold Pandas.set_status, Ledger.set_status. simpl.
    by rewrite (value_of_nonempty ds), (value_of_nonempty is') by done.
  - unfold frame_of. rewrite fmap_app. simpl.
    by rewrite (value_of_nonempty app_name), (value_of_nonempty ds),
      (value_of_nonempty is') by done.
Qed.

(** Line 189 on a frame of text is [url_of]. *)
Lemma lookup_url_frame_of (df : DataFrame) (app_name : str) :
  app_name ≠ [] →
  lookup_url (frame_of (number := number) df) (Str app_name)
  = value_of (url_of df app_name).
Proof.
  intros Hne. unfold lookup_url, url_of, frame_of.
  rewrite list_find_fmap.
  rewrite (list_find_ext _ (λ r, row_name r = app_name)).
  - destruct (list_find _ df) as [[i r]|]; [done|]. simpl.
    by rewrite value_of_nonempty.
  - intros r. simpl. by apply value_eqb_value_of.
Qed.

Lemma plain_row_upsert (df : DataFrame) (app_name url ds is' : str) :
  Forall (plain_row parser) df →
  plain parser app_name → url = [] ∨ plain parser url →
  plain parser ds → plain parser is' →
  Forall (plain_row parser) (upsert df app_name url ds is').
Proof.
  intros Hdf Hname Hurl Hds His. unfold upsert.
  destruct (Ledger.name_index df app_name) as [index|].
  - apply Forall_alter; [done|]. intros r _ (Hr & Hu & _ & _).
    unfold plain_row. simpl. auto.
  - apply Forall_app. split; [done|]. apply Forall_singleton.
    unfold plain_row. simpl. auto.
Qed.

(** X20. With a name that reads as missing, every call takes the else
    branch: the rows come back as they were read and one row is added,
    whether or not a row of the worksheet holds the same text as its
    name. The worksheet grows by one row at every call. *)
Theorem update_excel_status_missing_name sheet name url ds is' :
  na_value parser name = true →
  update_excel_status parser sheet (Str name) url ds is'
  = (λ df, to_excel df
           ++ [ {| e_name := TextCell name; e_url := to_cell url;
                   e_download_status := TextCell ds;
                   e_install_status := TextCell is' |} ])
    <$> read_excel parser sheet
  ∧ ∀ sheet',
      update_excel_status parser sheet (Str name) url ds is' = Some sheet' →
      length sheet' = S (length sheet).
Proof.
  intros Hna.
  assert (update_excel_status parser sheet (Str name) url ds is'
          = (λ df, to_excel df
                   ++ [ {| e_name := TextCell name; e_url := to_cell url;
                           e_download_status := TextCell ds;
                           e_install_status := TextCell is' |} ])
            <$> read_excel parser sheet) as Heq.
  { unfold update_excel_status.
    destruct (read_excel parser sheet) as [df|] eqn:Hread; [|done].
    cbn [mbind option_bind fmap option_fmap option_map].
    unfold update. rewrite (name_index_missing sheet df name Hread Hna).
    unfold to_excel. by rewrite fmap_app. }
  split; [exact Heq|].
  intros sheet'. rewrite Heq.
  destruct (read_excel parser sheet) as [df|] eqn:Hread; [|done].
  intros [= <-].
  rewrite length_app, length_to_excel, (length_read_excel _ _ Hread). simpl. lia.
Qed.

(** X21. On a worksheet whose names are plain texts and whose other cells
    are blank or plain texts, [read_excel] hands back the texts, line 81
    compares them as texts and [to_excel] writes them back: one call of
    [update_excel_status] with a plain name and plain statuses turns the
    worksheet of [df] into the worksheet of [upsert df], which is again
    such a worksheet. *)
Theorem update_excel_status_on_text (df : DataFrame) (app_name url ds is' : str) :
  Forall (plain_row parser) df →
  plain parser app_name → url = [] ∨ plain parser url →
  plain parser ds → plain parser is' →
  update_excel_status parser (sheet_of df) (Str app_name) (value_of url) ds is'
  = Some (sheet_of (upsert df app_name url ds is'))
  ∧ Forall (plain_row parser) (upsert df app_name url ds is').
Proof.
  intros Hdf Hname Hurl Hds His. split; [|by apply plain_row_upsert].
  unfold update_excel_status. rewrite read_excel_sheet_of by done.
  cbn [mbind option_bind].
  rewrite update_frame_of; [by rewrite to_excel_frame_of|apply Hname|apply Hds|apply His].
Qed.

(** X22. On such a worksheet, with [df0] the frame read before the tasks,
    lines 188 to 191 of [install_apk] record the file under its base name
    with "已下载", the status of the installer and the URL that [df0] has
    for the name, "本地安装" when it has none. *)
Theorem install_apk_ledger_on_text (df0 df : DataFrame) (apk_file install_status : str) :
  let app_name := (Path.splitext apk_file).1 in
  Forall (plain_row parser) df →
  plain parser app_name → plain parser install_status → plain parser (u "已下载") →
  install_apk_ledger parser (frame_of df0) (sheet_of df) apk_file install_status
  = Some (sheet_of (upsert df app_name (url_of df0 app_name) (u "已下载") install_status)).
Proof.
  intros app_name Hdf Hname His Hds. unfold install_apk_ledger. fold app_name.
  rewrite lookup_url_frame_of by apply Hname.
  unfold update_excel_status. rewrite read_excel_sheet_of by done.
  cbn [mbind option_bind].
  rewrite update_frame_of; [by rewrite to_excel_frame_of|apply Hname|apply Hds|apply His].
Qed.

(** X23. On such a worksheet in which the name has at most one row, two
    calls with the name leave exactly one row of the name, with the
    statuses of the second call. *)
Theorem update_excel_status_twice_on_text
    (df : DataFrame) (app_name url1 ds1 is1 url2 ds2 is2 : str) :
  Forall (plain_row parser) df →
  plain parser app_name →
  plain parser url1 → plain parser ds1 → plain parser is1 →
  plain parser url2 → plain parser ds2 → plain parser is2 →
  (length (rows_named app_name df) ≤ 1)%nat →
  ∃ df' r,
    (sheet ← update_excel_status parser (sheet_of df)
               (Str app_name) (Str url1) ds1 is1;
     update_excel_status parser sheet (Str app_name) (Str url2) ds2 is2)
    = Some (sheet_of df')
    ∧ rows_named app_name df' = [r]
    ∧ row_download_status r = ds2 ∧ row_install_status r = is2.
Proof.
  intros Hdf Hname Hurl1 Hds1 His1 Hurl2 Hds2 His2 Huniq.
  exists (upsert (upsert df app_name url1 ds1 is1) app_name url2 ds2 is2).
  assert (Forall (plain_row parser) (upsert df app_name url1 ds1 is1)) as Hdf1.
  { apply plain_row_upsert; auto. }
  assert (∃ r, rows_named app_name
                 (upsert (upsert df app_name url1 ds1 is1) app_name url2 ds2 is2) = [r]
               ∧ row_download_status r = ds2 ∧ row_install_status r = is2)
    as (r & Hr & Hds & His).
  { rewrite !rows_named_upsert.
    destruct (rows_named app_name df) as [|r [|r' rs]]; simpl in *; [eauto..|lia]. }
  exists r. split; [|done].
  unfold update_excel_status.
  rewrite <- (value_of_nonempty url1), <- (value_of_nonempty url2)
    by (apply Hurl1 || apply Hurl2).
  rewrite read_excel_sheet_of by done. cbn [mbind option_bind].
  rewrite update_frame_of; [|apply Hname|apply Hds1|apply His1].
  rewrite to_excel_frame_of, read_excel_sheet_of by done. cbn [mbind option_bind].
  rewrite update_frame_of; [|apply Hname|apply Hds2|apply His2].
  by rewrite to_excel_frame_of.
Qed.

End Cells.

(** ** The workbook at names that read as missing *)

Import Scenario.

(** C1 (the code at the failing input). The ledger has no row and
    [update_excel_status] is called twice with the name NA. The first
    call appends a row. The second call reads the name of that row as a
    missing value, does not find NA at line 81 and appends again: the
    ledger ends with two rows, the first one without its name and with
    the statuses of the first call. *)
Theorem update_excel_status_twice_appends_twice :
  let url := u "http://host/NA.apk" in
  let once := [text_row (u "NA") url (u "下载成功") (u "未安装")] in
  let twice := [nameless_row url (u "下载成功") (u "未安装");
                text_row (u "NA") url (u "下载成功") (u "安装成功")] in
  Pandas.update_excel_status parser [] (Pandas.Str (u "NA")) (Pandas.Str url)
    (u "下载成功") (u "未安装") = Some once
  ∧ Pandas.update_excel_status parser once (Pandas.Str (u "NA")) (Pandas.Str url)
      (u "下载成功") (u "安装成功") = Some twice.
Proof. vm_compute. split; reflexivity. Qed.

(** C8 (the code at the failing input). The ledger has a row named a and
    a row named NA, and [update_excel_status] is called with the name NA.
    The row named NA is not found: it keeps its statuses, loses its name
    and a third row is appended. *)
Theorem update_excel_status_blanks_matched_name :
  Pandas.update_excel_status parser
    [text_row (u "a") (u "http://host/a.apk") (u "下载成功") (u "安装成功");
     text_row (u "NA") (u "http://host/NA.apk") (u "下载成功") (u "未安装")]
    (Pandas.Str (u "NA")) (Pandas.Str (u "http://host/NA.apk"))
    (u "下载成功") (u "安装成功")
  = Some
      [text_row (u "a") (u "http://host/a.apk") (u "下载成功") (u "安装成功");
       nameless_row (u "http://host/NA.apk") (u "下载成功") (u "未安装");
       text_row (u "NA") (u "http://host/NA.apk") (u "下载成功") (u "安装成功")].
Proof. vm_compute. reflexivity. Qed.

(** C7 (the code at the failing input). The ledger has a row named NA
    with its URL and the directory holds NA.apk. Line 189 does not find
    the name in the frame and takes "本地安装"; [update_excel_status]
    then appends a row with that marker, and the row that has the URL
    loses its name. *)
Theorem install_apk_ledger_misses_matching_row :
  let sheet := [text_row (u "NA") (u "http://host/NA.apk") (u "下载成功") (u "未安装")] in
  ∃ df,
    Pandas.read_excel parser sheet = Some df
    ∧ (Path.splitext (u "NA.apk")).1 = u "NA"
    ∧ Pandas.lookup_url df (Pandas.Str (u "NA")) = Pandas.Str (u "本地安装")
    ∧ Pandas.install_apk_ledger parser df sheet (u "NA.apk") (u "安装成功")
      = Some [nameless_row (u "http://host/NA.apk") (u "下载成功") (u "未安装");
              text_row (u "NA") (u "本地安装") (u "已下载") (u "安装成功")].
Proof.
  eexists. split; [vm_compute; reflexivity|]. vm_compute. repeat split; reflexivity.
Qed.

(** The same happens to a name that is a numeral: the column of names is
    read as numbers, and the text 12306 equals none of them. *)
Example install_apk_ledger_numeral :
  let sheet :=
    [text_row (u "12306") (u "http://host/12306.apk") (u "下载成功") (u "未安装")] in
  ∃ df,
    Pandas.read_excel parser sheet = Some df
    ∧ Pandas.e_name <$> df = [Pandas.Num 12306%Z]
    ∧ Pandas.install_apk_ledger parser df sheet (u "12306.apk") (u "安装成功")
      = Some
          [ {| Pandas.e_name := Pandas.NumCell 12306%Z;
               Pandas.e_url := Pandas.TextCell (u "http://host/12306.apk");
               Pandas.e_download_status := Pandas.TextCell (u "下载成功");
               Pandas.e_install_status := Pandas.TextCell (u "未安装") |};
            text_row (u "12306") (u "本地安装") (u "已下载") (u "安装成功") ].
Proof.
  eexists. split; [vm_compute; reflexivity|]. vm_compute. split; reflexivity.
Qed.

(** A row that is not the one being updated is rewritten as well when one
    of its cells reads as missing: here the URL N/A of the row b. *)
Example update_excel_status_blanks_other_row :
  Pandas.update_excel_status parser
    [text_row (u "a") (u "http://host/a.apk") (u "下载成功") (u "未安装");
     text_row (u "b") (u "N/A") (u "下载成功") (u "未安装")]
    (Pandas.Str (u "a")) (Pandas.Str (u "http://host/a.apk"))
    (u "下载成功") (u "安装成功")
  = Some
      [text_row (u "a") (u "http://host/a.apk") (u "下载成功") (u "安装成功");
       {| Pandas.e_name := Pandas.TextCell (u "b");
          Pandas.e_url := Pandas.Blank;
          Pandas.e_download_status := Pandas.TextCell (u "下载成功");
          Pandas.e_install_status := Pandas.TextCell (u "未安装") |}].
Proof. vm_compute. reflexivity. Qed.

(** A column in which every text stands for a boolean is outside what is
    followed here. *)
Example read_excel_booleans :
  Pandas.read_excel parser
    [text_row (u "True") (u "http://host/a.apk") (u "下载成功") (u "未安装")] = None.
Proof. vm_compute. reflexivity. Qed.

(** *** The theorems at concrete inputs *)

Ltac plain_text := split; [done|]; repeat split; vm_compute; reflexivity.

Ltac plain_rows :=
  repeat (apply Forall_cons; split;
          [split; [plain_text|];
           repeat split; first [by left | right; plain_text]|]);
  apply Forall_nil; exact I.

Lemma update_excel_status_missing_name_witness :
  Pandas.na_value parser (u "NA") = true
  ∧ ∃ sheet',
      Pandas.update_excel_status parser
        [text_row (u "NA") (u "http://host/NA.apk") (u "下载成功") (u "未安装")]
        (Pandas.Str (u "NA")) (Pandas.Str (u "http://host/NA.apk"))
        (u "下载成功") (u "安装成功") = Some sheet'
      ∧ length sheet' = 2%nat.
Proof.
  split; [vm_compute; reflexivity|].
  destruct (update_excel_status_missing_name parser
              [text_row (u "NA") (u "http://host/NA.apk") (u "下载成功") (u "未安装")]
              (u "NA") (Pandas.Str (u "http://host/NA.apk"))
              (u "下载成功") (u "安装成功")) as [_ Hlen].
  - vm_compute. reflexivity.
  - eexists. split; [vm_compute; reflexivity|]. apply Hlen. vm_compute. reflexivity.
Defined.

Lemma update_excel_status_on_text_witness :
  Forall (Pandas.plain_row parser) [app_a; app_b]
  ∧ Pandas.plain parser (u "b")
  ∧ Pandas.plain parser (u "http://host/b.apk")
  ∧ Pandas.plain parser (u "下载成功")
  ∧ Pandas.plain parser (u "未安装")
  ∧ Pandas.update_excel_status parser (Pandas.sheet_of [app_a; app_b])
      (Pandas.Str (u "b")) (Pandas.value_of (u "http://host/b.apk"))
      (u "下载成功") (u "未安装")
    = Some (Pandas.sheet_of
        [app_a;
         {| row_name := u "b"; row_url := u "http://host/b.apk";
            row_download_status := u "下载成功"; row_install_status := u "未安装" |}]).
Proof.
  assert (Forall (Pandas.plain_row parser) [app_a; app_b]) as Hdf by plain_rows.
  assert (Pandas.plain parser (u "b")) as Hname by plain_text.
  assert (Pandas.plain parser (u "http://host/b.apk")) as Hurl by plain_text.
  assert (Pandas.plain parser (u "下载成功")) as Hds by plain_text.
  assert (Pandas.plain parser (u "未安装")) as His by plain_text.
  split; [exact Hdf|]. split; [exact Hname|]. split; [exact Hurl|].
  split; [exact Hds|]. split; [exact His|].
  destruct (update_excel_status_on_text parser [app_a; app_b] (u "b")
              (u "http://host/b.apk") (u "下载成功") (u "未安装")
              Hdf Hname (or_intror Hurl) Hds His) as [Heq _].
  rewrite Heq. vm_compute. reflexivity.
Defined.

Lemma install_apk_ledger_on_text_witness :
  Forall (Pandas.plain_row parser) [app_a]
  ∧ Pandas.plain parser (Path.splitext (u "a.apk")).1
  ∧ Pandas.plain parser (u "安装成功")
  ∧ Pandas.plain parser (u "已下载")
  ∧ Pandas.install_apk_ledger parser (Pandas.frame_of [app_a]) (Pandas.sheet_of [app_a])
      (u "a.apk") (u "安装成功")
    = Some (Pandas.sheet_of
        [ {| row_name := u "a"; row_url := u "http://host/a.apk";
             row_download_status := u "已下载"; row_install_status := u "安装成功" |} ]).
Proof.
  assert (Forall (Pandas.plain_row parser) [app_a]) as Hdf by plain_rows.
  assert (Pandas.plain parser (Path.splitext (u "a.apk")).1) as Hname.
  { split; [by vm_compute|]. repeat split; vm_compute; reflexivity. }
  assert (Pandas.plain parser (u "安装成功")) as His by plain_text.
  assert (Pandas.plain parser (u "已下载")) as Hds by plain_text.
  split; [exact Hdf|]. split; [exact Hname|]. split; [exact His|]. split; [exact Hds|].
  rewrite (install_apk_ledger_on_text parser [app_a] [app_a] (u "a.apk") (u "安装成功")
             Hdf Hname His Hds).
  vm_compute. reflexivity.
Defined.

Lemma update_excel_status_twice_on_text_witness :
  Forall (Pandas.plain_row parser) [app_a; app_b]
  ∧ (length (rows_named (u "a") [app_a; app_b]) ≤ 1)%nat
  ∧ ∃ df' r,
      (sheet ← Pandas.update_excel_status parser (Pandas.sheet_of [app_a; app_b])
                 (Pandas.Str (u "a")) (Pandas.Str (u "http://host/a.apk"))
                 (u "下载成功") (u "未安装");
       Pandas.update_excel_status parser sheet
         (Pandas.Str (u "a")) (Pandas.Str (u "http://host/a.apk"))
         (u "下载成功") (u "安装成功"))
      = Some (Pandas.sheet_of df')
      ∧ rows_named (u "a") df' = [r]
      ∧ row_download_status r = u "下载成功"
      ∧ row_install_status r = u "安装成功".
Proof.
  assert (Forall (Pandas.plain_row parser) [app_a; app_b]) as Hdf by plain_rows.
  assert ((length (rows_named (u "a") [app_a; app_b]) ≤ 1)%nat) as Huniq
    by (vm_compute; lia).
  split; [exact Hdf|]. split; [exact Huniq|].
  apply (update_excel_status_twice_on_text parser [app_a; app_b] (u "a")
           (u "http://host/a.apk") (u "下载成功") (u "未安装")
           (u "http://host/a.apk") (u "下载成功") (u "安装成功"));
    first [exact Hdf | exact Huniq | plain_text].
Defined.
